(** * Project structure analyzer: [analyze_structure.py]

    A shallow embedding of the tree builder [analyze_directory], the line
    counter [count_lines] and the aggregator [calculate_stats] of
    [codebase-explorer/scripts/analyze_structure.py], followed by the
    properties of the built tree and of the statistics.

    Modelling choices.
    - A Python [str] is a [string] of bytes (the UTF-8 encoding, whose
      byte-wise lexicographic order is the code-point order Python sorts by).
      [lower] folds the ASCII letters only.
    - A [Path] is the string [str(path)] of an absolute, normalised POSIX
      path: [path_name] and [path_suffix] are pathlib's [name] and [suffix],
      [joinpath] is the [/] operator that [iterdir] applies to each entry.
    - The file system is a finite tree [fsnode]. What [is_dir] answers is the
      constructor; what [iterdir] and [open] return or raise is stored in it.
    - Exceptions are explicit: fallible operations return a [result].
    - A node dictionary is the record [node]; the list under ['children']
      holds nodes and marker strings, hence [list (string + node)].
    - [json.dump] and [json.load] belong to the Python library: they are
      modelled on the JSON value they exchange, not on its text. *)

From Stdlib Require Import ZArith Lia Ascii.
From Stdlib Require OrderedTypeEx DecimalString.
From stdpp Require Import base option list sorting gmap strings.

Local Open Scope string_scope.
Local Open Scope list_scope.
Local Open Scope Z_scope.
Local Set Warnings "-register-all".

(** ** Python strings *)

(** [s.startswith(p)] *)
Definition startswith (s p : string) : bool := String.prefix p s.

(** [s.lstrip(c)] for a single character [c] *)
Fixpoint lstrip (c : ascii) (s : string) : string :=
  match s with
  | String a r => if Ascii.eqb a c then lstrip c r else s
  | EmptyString => EmptyString
  end.

Definition ascii_lower (a : ascii) : ascii :=
  let n := N_of_ascii a in
  if ((65 <=? n) && (n <=? 90))%N then ascii_of_N (n + 32) else a.

(** [s.lower()] *)
Fixpoint lower (s : string) : string :=
  match s with
  | String a r => String (ascii_lower a) (lower r)
  | EmptyString => EmptyString
  end.

Fixpoint rfind_from (c : ascii) (s : string) (i found : Z) : Z :=
  match s with
  | String a r => rfind_from c r (i + 1) (if Ascii.eqb a c then i else found)
  | EmptyString => found
  end.

(** [s.rfind(c)]: the last index of [c] in [s], or [-1] *)
Definition rfind (c : ascii) (s : string) : Z := rfind_from c s 0 (-1).

Definition str_len (s : string) : Z := Z.of_nat (String.length s).

(** [s[i:]] for [0 <= i] *)
Definition slice_from (i : Z) (s : string) : string :=
  String.substring (Z.to_nat i) (String.length s - Z.to_nat i) s.

(** ** Paths *)

Fixpoint path_name_from (seg s : string) : string :=
  match s with
  | String a r =>
      if Ascii.eqb a "/" then path_name_from "" r
      else path_name_from (seg +:+ String a "") r
  | EmptyString => seg
  end.

(** [Path(s).name]: the final segment of the path *)
Definition path_name (s : string) : string := path_name_from "" s.

(** [Path(s).suffix]: from the last dot of the name, unless the dot is the
    first or the last character of the name (pathlib up to Python 3.12) *)
Definition path_suffix (s : string) : string :=
  let name := path_name s in
  let i := rfind "." name in
  if (0 <? i) && (i <? str_len name - 1) then slice_from i name else "".

(** [str(Path(s) / entry)] *)
Definition joinpath (s entry : string) : string :=
  if String.eqb s "/" then s +:+ entry else s +:+ "/" +:+ entry.

(** The extension both [analyze_directory] and [calculate_stats] compute:
    [path.suffix.lstrip('.').lower()] *)
Definition path_ext (s : string) : string := lower (lstrip "." (path_suffix s)).

(** ** Classifier tables *)

Definition KEY_DIRECTORIES : gmap string string :=
  list_to_map [
    ("src", "Source code"); ("lib", "Library code"); ("app", "Application code");
    ("components", "UI components"); ("pages", "Page components");
    ("views", "View components"); ("api", "API endpoints");
    ("routes", "Route definitions"); ("controllers", "Controller logic");
    ("services", "Business logic services"); ("models", "Data models");
    ("utils", "Utility functions"); ("helpers", "Helper functions");
    ("config", "Configuration files"); ("tests", "Test files");
    ("test", "Test files"); ("__tests__", "Test files");
    ("spec", "Test specifications"); ("docs", "Documentation");
    ("assets", "Static assets"); ("public", "Public files");
    ("static", "Static files"); ("styles", "Stylesheets");
    ("scripts", "Build/deploy scripts"); ("dist", "Distribution files");
    ("build", "Build output"); ("node_modules", "Node dependencies");
    (".git", "Git version control"); ("vendor", "Third-party dependencies")].

Definition CODE_EXTENSIONS : gset string :=
  list_to_set [
    "py"; "js"; "ts"; "jsx"; "tsx"; "vue"; "svelte";
    "java"; "kt"; "kts"; "go"; "rs"; "c"; "cpp"; "h"; "hpp";
    "cs"; "swift"; "rb"; "php"; "scala"; "dart";
    "html"; "css"; "scss"; "sass"; "less";
    "json"; "yaml"; "yml"; "xml"; "toml"; "ini"].

(** The local set [skip_dirs] of [analyze_directory] *)
Definition skip_dirs : gset string :=
  list_to_set ["node_modules"; "__pycache__"; ".git"; "dist"; "build"; ".next"; ".nuxt"].

Definition SKIPPED : string := "<skipped>".
Definition PERMISSION_DENIED : string := "<permission denied>".

(** ** Exceptions *)

Inductive exn : Type :=
  | PermissionError
  | FileNotFoundError
  | IsADirectoryError
  | OSError.

Inductive result (A : Type) : Type :=
  | Return (a : A)
  | Raise (e : exn).
Arguments Return {A} a.
Arguments Raise {A} e.

(** [except PermissionError] *)
Definition is_permission_error (e : exn) : bool :=
  match e with PermissionError => true | _ => false end.

(** ** The file system *)

(** A path that [is_dir()] is a [Dir] with what [iterdir()] yields (entry
    names, in the order the system lists them) or raises; any other path is
    a [File] with the lines that iterating the opened file yields, or the
    exception that [open] or the read raises. A listing whose entries cannot
    be inspected ([is_dir] denied while sorting) raises inside the same
    [try] as [iterdir] and is a [Dir] that raises [PermissionError]. *)
Inductive fsnode : Type :=
  | File (content : result (list string))
  | Dir (listing : result (list (string * fsnode))).

Definition is_dir (f : fsnode) : bool :=
  match f with Dir _ => true | File _ => false end.

(** ** Nodes *)

Inductive node_type : Type := TDir | TFile.

(** The dictionary [result] of [analyze_directory] *)
Inductive node : Type := Node {
  name : string;
  type : node_type;
  path : string;
  children : list (string + node);
  line_count : Z;
  is_key : bool }.

(** ** Line counter *)

(** [sum(1 for _ in f)] *)
Definition sum_ones {A} (f : list A) : Z := foldr (fun _ acc => 1 + acc) 0 f.

(** The body of the [try]: open the file and count what it yields *)
Definition open_and_count (content : result (list string)) : result Z :=
  match content with
  | Return f => Return (sum_ones f)
  | Raise e => Raise e
  end.

(** [count_lines]: [except Exception: return 0] catches every [exn] *)
Definition count_lines (content : result (list string)) : result Z :=
  match open_and_count content with
  | Return n => Return n
  | Raise _ => Return 0
  end.

(** ** Sorting *)

(** Python compares the key tuples [(not x.is_dir(), x.name)]
    lexicographically, [False] before [True] *)
Definition key_le (a b : bool * string) : bool :=
  match a.1, b.1 with
  | false, true => true
  | true, false => false
  | _, _ => String.leb a.2 b.2
  end.

Section sorted.
Context {A : Type} (key : A -> bool * string).

(** [x] goes before the first element whose key is not smaller: elements
    of equal keys keep their order, as in Python's stable sort *)
Fixpoint insert_sorted (x : A) (l : list A) : list A :=
  match l with
  | [] => [x]
  | y :: r => if key_le (key x) (key y) then x :: l else y :: insert_sorted x r
  end.

(** [sorted(l, key=key)] *)
Definition sorted (l : list A) : list A := foldr insert_sorted [] l.

(** The order in which [sorted] leaves two elements *)
Definition key_rel (x y : A) : Prop := key_le (key x) (key y) = true.
End sorted.

(** ** Tree builder *)

(** [name.startswith('.') and name != '.'] *)
Definition hidden_name (nm : string) : bool :=
  startswith nm "." && negb (String.eqb nm ".").

(** The state of the [for] loop: [result['children']] and
    [result['line_count']], and the exception that ended the loop, if any *)
Definition loop_state : Type := list (string + node) * Z * option exn.

Section for_items.
Context (analyze : string -> fsnode -> result (option node)).

Fixpoint for_items (items : list (string * fsnode))
    (chn : list (string + node)) (lc : Z) : loop_state :=
  match items with
  | [] => (chn, lc, None)
  | item :: rest =>
      match analyze item.1 item.2 with
      | Raise e => (chn, lc, Some e)
      | Return None => for_items rest chn lc
      | Return (Some child) =>
          for_items rest (chn ++ [inr child]) (lc + line_count child)
      end
  end.
End for_items.

(** The key of the sort: [lambda x: (not x.is_dir(), x.name)] *)
Definition item_key (x : string * fsnode) : bool * string :=
  (negb (is_dir x.2), path_name x.1).

(** [sorted(root_path.iterdir(), key=...)]: the paths of the entries with
    what the file system holds there *)
Definition sorted_items (root_path : string) (entries : list (string * fsnode))
    : list (string * fsnode) :=
  sorted item_key
         (map (fun en : string * fsnode => (joinpath root_path en.1, en.2)) entries).

(** The body of [try:] in the directory branch *)
Definition process_children (analyze : string -> fsnode -> result (option node))
    (root_path : string) (listing : result (list (string * fsnode))) : loop_state :=
  match listing with
  | Raise e => ([], 0, Some e)
  | Return entries => for_items analyze (sorted_items root_path entries) [] 0
  end.

(** The body of [analyze_directory] below the depth test; [recurse] is the
    recursive call at [current_depth + 1] *)
Definition analyze_node (recurse : string -> fsnode -> result (option node))
    (root_path : string) (f : fsnode) (include_hidden : bool)
    : result (option node) :=
  let nm := path_name root_path in
  match f with
  | Dir listing =>
      let key := bool_decide (is_Some (KEY_DIRECTORIES !! lower nm)) in
      if negb include_hidden && hidden_name nm then Return None
      else if bool_decide (nm ∈ skip_dirs) then
        Return (Some (Node nm TDir root_path [inl SKIPPED] 0 key))
      else
        match process_children recurse root_path listing with
        | (chn, lc, None) => Return (Some (Node nm TDir root_path chn lc key))
        | (chn, lc, Some e) =>
            if is_permission_error e
            then Return (Some (Node nm TDir root_path [inl PERMISSION_DENIED] lc key))
            else Raise e
        end
  | File content =>
      if bool_decide (path_ext root_path ∈ CODE_EXTENSIONS) then
        match count_lines content with
        | Return n => Return (Some (Node nm TFile root_path [] n false))
        | Raise e => Raise e
        end
      else Return (Some (Node nm TFile root_path [] 0 false))
  end.

(** [analyze_directory], by recursion on the number of levels left down to
    [max_depth]: the depth test is the code's termination argument *)
Fixpoint analyze_levels (levels : nat) (root_path : string) (f : fsnode)
    (max_depth : Z) (include_hidden : bool) (current_depth : Z)
    : result (option node) :=
  if current_depth >? max_depth then Return None else
  match levels with
  | O => Return None
  | S levels' =>
      analyze_node
        (fun p c => analyze_levels levels' p c max_depth include_hidden (current_depth + 1))
        root_path f include_hidden
  end.

Definition levels_left (max_depth current_depth : Z) : nat :=
  Z.to_nat (max_depth - current_depth + 1).

Definition analyze_directory (root_path : string) (f : fsnode)
    (max_depth : Z) (include_hidden : bool) (current_depth : Z)
    : result (option node) :=
  analyze_levels (levels_left max_depth current_depth)
                 root_path f max_depth include_hidden current_depth.

(** ** Statistics aggregator *)

(** The dictionary [stats] that [traverse] updates *)
Record stats : Type := Stats {
  total_files : Z;
  code_files : Z;
  total_lines : Z;
  directories : Z;
  by_language : gmap string Z }.

Definition stats_init : stats := Stats 0 0 0 0 ∅.

(** [stats['directories'] += 1] *)
Definition count_directory (st : stats) : stats :=
  Stats (total_files st) (code_files st) (total_lines st) (directories st + 1)
        (by_language st).

(** The [else] branch of [traverse], on the path and line count of a file *)
Definition count_file (pth : string) (lc : Z) (st : stats) : stats :=
  if 0 <? lc then
    let ext := path_ext pth in
    Stats (total_files st + 1) (code_files st + 1) (total_lines st + lc)
          (directories st)
          (<[ext := default 0 (by_language st !! ext) + lc]> (by_language st))
  else
    Stats (total_files st + 1) (code_files st) (total_lines st) (directories st)
          (by_language st).

(** [traverse], on a node dictionary; [traverse_child] is the same function
    on an element of a children list, where [isinstance(node, str)] can
    hold *)
Fixpoint traverse (n : node) (st : stats) : stats :=
  match type n with
  | TDir =>
      (fix each (l : list (string + node)) (st : stats) : stats :=
         match l with
         | [] => st
         | inl _ :: r => each r st
         | inr c :: r => each r (traverse c st)
         end) (children n) (count_directory st)
  | TFile => count_file (path n) (line_count n) st
  end.

Definition traverse_child (c : string + node) (st : stats) : stats :=
  match c with
  | inl _ => st
  | inr n => traverse n st
  end.

Definition calculate_stats (structure : node) : stats :=
  traverse structure stats_init.

(** ** JSON projection *)

Inductive json : Type :=
  | JNull
  | JBool (b : bool)
  | JNum (z : Z)
  | JStr (s : string)
  | JArr (l : list json)
  | JObj (fields : list (string * json)).

Definition type_str (t : node_type) : string :=
  match t with TDir => "dir" | TFile => "file" end.

(** What [json.dump] writes for a node: an object with the keys of the
    dictionary in insertion order; a marker is a JSON string *)
Fixpoint to_json (n : node) : json :=
  JObj [("name", JStr (name n));
        ("type", JStr (type_str (type n)));
        ("path", JStr (path n));
        ("children",
          JArr ((fix each (l : list (string + node)) : list json :=
                   match l with
                   | [] => []
                   | inl s :: r => JStr s :: each r
                   | inr c :: r => to_json c :: each r
                   end) (children n)));
        ("line_count", JNum (line_count n));
        ("is_key", JBool (is_key n))].

Definition child_to_json (c : string + node) : json :=
  match c with
  | inl s => JStr s
  | inr n => to_json n
  end.

(** [d[k]] and [d.get(k)] on a parsed object; [None] is a missing key *)
Fixpoint json_get (k : string) (fields : list (string * json)) : option json :=
  match fields with
  | [] => None
  | (k', v) :: r => if String.eqb k k' then Some v else json_get k r
  end.

Fixpoint json_height (v : json) : nat :=
  match v with
  | JArr l => S (foldr (fun x h => Nat.max (json_height x) h) O l)
  | JObj fields => S (foldr (fun kv h => Nat.max (json_height kv.2) h) O fields)
  | _ => 1%nat
  end.

(** [node['line_count']] where an integer is expected: a JSON boolean is a
    Python [bool], which compares and adds as [0] or [1] *)
Definition json_int (v : json) : option Z :=
  match v with
  | JNum z => Some z
  | JBool b => Some (if b then 1 else 0)
  | _ => None
  end.

(** [v == s] for a string literal [s] *)
Definition json_eq_str (v : json) (s : string) : bool :=
  match v with
  | JStr t => String.eqb t s
  | _ => false
  end.

(** [traverse] run on what [json.load] returns. [None] stands for the
    [KeyError] or [TypeError] that a value of another shape raises. The
    recursion is on the nesting depth of the value. *)
Fixpoint traverse_json (depth : nat) (v : json) (st : stats) : option stats :=
  match depth with
  | O => None
  | S depth' =>
      match v with
      | JStr _ => Some st
      | JObj fields =>
          t ← json_get "type" fields;
          if json_eq_str t "dir" then
            match default (JArr []) (json_get "children" fields) with
            | JArr l =>
                foldl (fun acc c => acc ≫= traverse_json depth' c)
                      (Some (count_directory st)) l
            | JStr _ | JObj _ => Some (count_directory st)
            | _ => None
            end
          else
            lc ← json_get "line_count" fields ≫= json_int;
            if 0 <? lc then
              match json_get "path" fields with
              | Some (JStr pth) => Some (count_file pth lc st)
              | _ => None
              end
            else Some (count_file "" lc st)
      | _ => None
      end
  end.

Definition calculate_stats_json (structure : json) : option stats :=
  traverse_json (json_height structure) structure stats_init.

(** ** Views of a built tree *)

(** The children that are nodes, without the marker strings *)
Definition child_nodes (n : node) : list node :=
  omap (fun c : string + node => match c with inr m => Some m | inl _ => None end)
       (children n).

(** Every node of the tree with its depth, the root being at depth [d] *)
Fixpoint nodes_from (d : Z) (n : node) : list (Z * node) :=
  (d, n) ::
  (fix each (l : list (string + node)) : list (Z * node) :=
     match l with
     | [] => []
     | inl _ :: r => each r
     | inr c :: r => nodes_from (d + 1) c ++ each r
     end) (children n).

(** All nodes of the tree, the root first *)
Definition nodes (n : node) : list node := (nodes_from 0 n).*2.

(** The nodes below the root *)
Definition descendants (n : node) : list node := tail (nodes n).

(** [sum(c['line_count'] for c in children)] *)
Definition sum_line_counts (l : list node) : Z :=
  foldr (fun c acc => line_count c + acc) 0 l.

(** What the [for] loop keeps of [items]: the nodes it appends, in order,
    and the exception that stops it, if any *)
Section collect.
Context (analyze : string -> fsnode -> result (option node)).

Fixpoint collect (items : list (string * fsnode)) : list node * option exn :=
  match items with
  | [] => ([], None)
  | item :: rest =>
      match analyze item.1 item.2 with
      | Raise e => ([], Some e)
      | Return None => collect rest
      | Return (Some child) => (child :: (collect rest).1, (collect rest).2)
      end
  end.
End collect.

(** [t] is what the builder returns for some path at depth [d] *)
Definition built (max_depth : Z) (include_hidden : bool) (d : Z) (t : node) : Prop :=
  exists p f, analyze_directory p f max_depth include_hidden d = Return (Some t).

(** The sort key of a node, as the builder sorts the entries it comes from *)
Definition node_key (n : node) : bool * string :=
  (match type n with TDir => false | TFile => true end, name n).



(** The number of levels below [f] that hold an entry *)
Fixpoint fs_height (f : fsnode) : nat :=
  match f with
  | Dir (Return entries) =>
      foldr (fun (en : string * fsnode) h => Nat.max (S (fs_height en.2)) h) O entries
  | _ => O
  end.

(** ** Entries that cannot be inspected *)





(** ** The scenario of a small project *)

Definition ten_lines : list string :=
  ["import os"; ""; "def main():"; "    pass"; ""; "if True:"; "    main()"; "#"; "#"; "#"].
Definition five_lines : list string := ["x = 1"; "y = 2"; ""; "z = 3"; "#"].
Definition three_lines : list string := ["# Title"; ""; "Text"].

Definition project : fsnode :=
  Dir (Return [
    ("README.md", File (Return three_lines));
    ("src", Dir (Return [("b.py", File (Return five_lines));
                         ("a.py", File (Return ten_lines))]));
    ("node_modules", Dir (Return []))]).






Definition project_root : string := "/home/u/proj".

(** The tree the builder returns for [project] with the default options *)
Definition project_tree : node :=
  Node "proj" TDir "/home/u/proj"
    [inr (Node "node_modules" TDir "/home/u/proj/node_modules" [inl "<skipped>"] 0 true);
     inr (Node "src" TDir "/home/u/proj/src"
            [inr (Node "a.py" TFile "/home/u/proj/src/a.py" [] 10 false);
             inr (Node "b.py" TFile "/home/u/proj/src/b.py" [] 5 false)]
            15 true);
     inr (Node "README.md" TFile "/home/u/proj/README.md" [] 0 false)]
    15 false.

(** ** Views of the statistics *)

(** What one traversal adds to a counter that grows by [a] at a directory
    node and by [b path line_count] at a file node: [traverse] descends
    below directory nodes only *)
Fixpoint visit_sum (a : Z) (b : string -> Z -> Z) (n : node) : Z :=
  match type n with
  | TDir =>
      a + (fix each (l : list (string + node)) : Z :=
             match l with
             | [] => 0
             | inl _ :: r => each r
             | inr c :: r => visit_sum a b c + each r
             end) (children n)
  | TFile => b (path n) (line_count n)
  end.

(** [sum(stats['by_language'].values())] *)
Definition lang_total (m : gmap string Z) : Z :=
  map_fold (fun _ v acc => v + acc) 0 m.

(** An entry name, as a directory listing gives it, holds no separator *)
Fixpoint no_slash (s : string) : bool :=
  match s with
  | String a r => negb (Ascii.eqb a "/") && no_slash r
  | EmptyString => true
  end.

(** ** Renderers *)

(** The line separator of ['\n'.join(lines)] *)
Definition NL : string := String (ascii_of_nat 10) "".

(** ['\n'.join(lines)] *)
Definition join_lines (lines : list string) : string := String.concat NL lines.

Fixpoint str_repeat_nat (s : string) (n : nat) : string :=
  match n with
  | O => ""
  | S k => s +:+ str_repeat_nat s k
  end.

(** [s * n]: empty when [n] is not positive *)
Definition str_repeat (s : string) (n : Z) : string := str_repeat_nat s (Z.to_nat n).

(** [str(n)], the decimal writing that an f-string gives an integer *)
Definition str_of_int (n : Z) : string :=
  DecimalString.NilZero.string_of_int (Z.to_int n).

(** [f" ({structure['line_count']} lines)" if structure['line_count'] > 0 else ''] *)
Definition line_info (lc : Z) : string :=
  if 0 <? lc then " (" +:+ str_of_int lc +:+ " lines)" else "".

(** [generate_mermaid_tree] *)
Fixpoint generate_mermaid_tree (structure : node) (indent : Z) : string :=
  let prefix := str_repeat "  " indent in
  join_lines
    match type structure with
    | TDir =>
        (prefix +:+ name structure) ::
        (fix each (l : list (string + node)) : list string :=
           match l with
           | [] => []
           | inl _ :: r => each r
           | inr child :: r => generate_mermaid_tree child (indent + 1) :: each r
           end) (children structure)
    | TFile => [prefix +:+ name structure +:+ line_info (line_count structure)]
    end.

(** The line of the diagram for a node at a depth *)
Definition mermaid_line (kn : Z * node) : string :=
  str_repeat "  " kn.1 +:+ name kn.2 +:+
  match type kn.2 with
  | TDir => ""
  | TFile => line_info (line_count kn.2)
  end.

(** The glyphs of the text tree, with the bytes they have in the source *)
Definition CONNECTOR_LAST : string := "â””â”€â”€ ".
Definition CONNECTOR_MID : string := "â”œâ”€â”€ ".
Definition EXTENSION_LAST : string := "    ".
Definition EXTENSION_MID : string := "â”‚   ".

(** [generate_text_tree]; [i] counts the children as [enumerate] does *)
Fixpoint generate_text_tree (structure : node) (prefix : string) (is_last : bool)
    : string :=
  let connector := if is_last then CONNECTOR_LAST else CONNECTOR_MID in
  let extension := if is_last then EXTENSION_LAST else EXTENSION_MID in
  join_lines
    ([prefix +:+ connector +:+ name structure] ++
     match type structure with
     | TDir =>
         if is_key structure then
           [prefix +:+ (if is_last then EXTENSION_LAST else EXTENSION_MID) +:+ "# " +:+
            default "" (KEY_DIRECTORIES !! lower (name structure))]
         else []
     | TFile => []
     end ++
     (fix each (i : Z) (l : list (string + node)) : list string :=
        match l with
        | [] => []
        | inl marker :: r => (prefix +:+ extension +:+ marker) :: each (i + 1) r
        | inr child :: r =>
            generate_text_tree child (prefix +:+ extension)
              (i =? Z.of_nat (length (children structure)) - 1)
            :: each (i + 1) r
        end) 0 (children structure)).

(** The lines of the text tree, one by one *)
Fixpoint text_tree_lines (structure : node) (prefix : string) (is_last : bool)
    : list string :=
  let connector := if is_last then CONNECTOR_LAST else CONNECTOR_MID in
  let extension := if is_last then EXTENSION_LAST else EXTENSION_MID in
  [prefix +:+ connector +:+ name structure] ++
  match type structure with
  | TDir =>
      if is_key structure then
        [prefix +:+ extension +:+ "# " +:+
         default "" (KEY_DIRECTORIES !! lower (name structure))]
      else []
  | TFile => []
  end ++
  (fix each (i : Z) (l : list (string + node)) : list string :=
     match l with
     | [] => []
     | inl marker :: r => (prefix +:+ extension +:+ marker) :: each (i + 1) r
     | inr child :: r =>
         text_tree_lines child (prefix +:+ extension)
           (i =? Z.of_nat (length (children structure)) - 1)
         ++ each (i + 1) r
     end) 0 (children structure).

(** All nodes of a tree, whatever their kind, the root first *)
Fixpoint all_nodes (n : node) : list node :=
  n ::
  (fix each (l : list (string + node)) : list node :=
     match l with
     | [] => []
     | inl _ :: r => each r
     | inr c :: r => all_nodes c ++ each r
     end) (children n).

(** All marker strings of a tree *)
Fixpoint all_markers (n : node) : list string :=
  (fix each (l : list (string + node)) : list string :=
     match l with
     | [] => []
     | inl s :: r => s :: each r
     | inr c :: r => all_markers c ++ each r
     end) (children n).

(** The nodes that get an annotation line: the key directories *)
Definition annotated (n : node) : bool :=
  match type n with
  | TDir => is_key n
  | TFile => false
  end.

(** ** Command line of [main] *)

Section main_options.
(** [int(s)] of the Python library: [None] is its [ValueError] *)
Context (int : string -> option Z).

(** The [while] loop over [sys.argv], from index [i] on *)
Fixpoint parse_options (args : list string) (max_depth : Z) (include_hidden : bool)
    : option (Z * bool) :=
  match args with
  | [] => Some (max_depth, include_hidden)
  | a :: rest =>
      if String.eqb a "--max-depth" then
        match rest with
        | v :: rest' => d ← int v; parse_options rest' d include_hidden
        | [] => parse_options rest max_depth include_hidden
        end
      else if String.eqb a "--include-hidden" then parse_options rest max_depth true
      else parse_options rest max_depth include_hidden
  end.

(** The options [main] passes to the builder, for [len(sys.argv) >= 2] *)
Definition main_options (argv : list string) : option (Z * bool) :=
  parse_options (drop 2 argv) 3 false.
End main_options.

(** An entry that the builder keeps when the depth allows: anything but a
    directory with a hidden name while hidden entries are not included *)
Definition kept_entry (root_path : string) (include_hidden : bool)
    (en : string * fsnode) : bool :=
  negb (is_dir en.2 && negb include_hidden
        && hidden_name (path_name (joinpath root_path en.1))).

(** * The other scripts *)

(** ** More of Python's strings *)

(** As [lower] does, the functions below follow Python on ASCII text: white
    space is the white space of the ASCII range and an index counts bytes,
    which are the characters of such a text. *)

(** All characters are in the ASCII range *)
Fixpoint is_ascii (s : string) : bool :=
  match s with
  | String a r => (N_of_ascii a <? 128)%N && is_ascii r
  | EmptyString => true
  end.

(** [c.isspace()] for a character of the ASCII range *)
Definition is_space (a : ascii) : bool :=
  let n := N_of_ascii a in
  (((9 <=? n) && (n <=? 13)) || ((28 <=? n) && (n <=? 32)))%N.

Fixpoint lstrip_ws (s : string) : string :=
  match s with
  | String a r => if is_space a then lstrip_ws r else s
  | EmptyString => EmptyString
  end.

Fixpoint rstrip_ws (s : string) : string :=
  match s with
  | String a r =>
      let r' := rstrip_ws r in
      if is_space a && String.eqb r' "" then "" else String a r'
  | EmptyString => EmptyString
  end.

(** [s.strip()] *)
Definition strip (s : string) : string := rstrip_ws (lstrip_ws s).

(** [s.rstrip(c)] for a single character [c] *)
Fixpoint rstrip (c : ascii) (s : string) : string :=
  match s with
  | String a r =>
      let r' := rstrip c r in
      if Ascii.eqb a c && String.eqb r' "" then "" else String a r'
  | EmptyString => EmptyString
  end.

(** [s.split(c)] for a single character [c]: the pieces, empty ones kept *)
Fixpoint split_char (c : ascii) (s : string) : list string :=
  match s with
  | String a r =>
      if Ascii.eqb a c then "" :: split_char c r
      else match split_char c r with
           | x :: xs => String a x :: xs
           | [] => [String a ""]
           end
  | EmptyString => [""]
  end.

Fixpoint split_ws_from (tok s : string) : list string :=
  match s with
  | String a r =>
      if is_space a then
        if String.eqb tok "" then split_ws_from "" r else tok :: split_ws_from "" r
      else split_ws_from (tok +:+ String a "") r
  | EmptyString => if String.eqb tok "" then [] else [tok]
  end.

(** [s.split()]: the words between runs of white space *)
Definition split_ws (s : string) : list string := split_ws_from "" s.

(** [re.split(r'[...]', s)[0]] for a class [sep] of single characters: what
    comes before the first separator *)
Fixpoint take_until (sep : ascii -> bool) (s : string) : string :=
  match s with
  | String a r => if sep a then "" else String a (take_until sep r)
  | EmptyString => EmptyString
  end.

(** [sub in s] *)
Fixpoint str_contains (sub s : string) : bool :=
  String.prefix sub s ||
  match s with
  | String _ r => str_contains sub r
  | EmptyString => false
  end.

(** [s.endswith(suffix)] *)
Definition endswith (s suffix : string) : bool :=
  (String.length suffix <=? String.length s)%nat &&
  String.eqb (String.substring (String.length s - String.length suffix)
                               (String.length suffix) s) suffix.

(** [s.replace(c, '')] for a single character [c] *)
Fixpoint remove_char (c : ascii) (s : string) : string :=
  match s with
  | String a r => if Ascii.eqb a c then remove_char c r else String a (remove_char c r)
  | EmptyString => EmptyString
  end.

(** [len(s)]: the code points of the UTF-8 text, that is the bytes that do
    not continue a character *)
Fixpoint py_len (s : string) : Z :=
  match s with
  | String a r =>
      (if (N.land (N_of_ascii a) 192 =? 128)%N then 0 else 1) + py_len r
  | EmptyString => 0
  end.

(** [l.count(x)] *)
Definition list_count (x : string) (l : list string) : Z :=
  Z.of_nat (length (filter (fun y => y = x) l)).

(** [max(iterable, key=key)] on a non-empty iterable given as its first
    element and the rest: the first element of greatest key *)
Fixpoint max_by {A : Type} (key : A -> Z) (best : A) (l : list A) : A :=
  match l with
  | [] => best
  | x :: r => if key best <? key x then max_by key x r else max_by key best r
  end.

(** ** [commit_helper.py] *)

Module CommitHelper.

(** [self.commit_types] *)
Definition commit_types : gmap string string :=
  list_to_map [
    ("feat", "A new feature"); ("fix", "A bug fix");
    ("docs", "Documentation changes");
    ("style", "Code style changes (formatting, missing semi colons, etc)");
    ("refactor", "Code refactoring"); ("test", "Adding or modifying tests");
    ("chore", "Maintenance tasks, build process, dependencies")].

(** What [subprocess.run] reports of a finished process *)
Record completed : Type := Completed {
  returncode : Z;
  stdout : string;
  stderr : string }.

(** [run_git_command]: with [check=True] a return code other than 0 raises
    [CalledProcessError], which the function catches *)
Definition run_git_command (r : completed) : bool * string :=
  if returncode r =? 0 then (true, strip (stdout r)) else (false, strip (stderr r)).

(** The dictionary [changes] *)
Record changes : Type := Changes {
  added : list string;
  modified : list string;
  deleted : list string;
  renamed : list string }.

Definition no_changes : changes := Changes [] [] [] [].

(** [status == c or status.startswith(c)] *)
Definition has_status (status c : string) : bool :=
  String.eqb status c || startswith status c.

(** The body of the loop of [get_staged_changes] *)
Definition classify (ch : changes) (line : string) : changes :=
  if String.eqb (strip line) "" then ch
  else
    let status := strip (String.substring 0 2 line) in
    let filename := strip (String.substring 3 (String.length line - 3) line) in
    if has_status status "A" then
      Changes (added ch ++ [filename]) (modified ch) (deleted ch) (renamed ch)
    else if has_status status "M" then
      Changes (added ch) (modified ch ++ [filename]) (deleted ch) (renamed ch)
    else if has_status status "D" then
      Changes (added ch) (modified ch) (deleted ch ++ [filename]) (renamed ch)
    else if has_status status "R" then
      Changes (added ch) (modified ch) (deleted ch) (renamed ch ++ [filename])
    else ch.

(** [get_staged_changes], on what [git status --porcelain] reports *)
Definition get_staged_changes (status : completed) : changes :=
  let (success, status_output) := run_git_command status in
  if negb success then no_changes
  else foldl classify no_changes (split_char (ascii_of_nat 10) status_output).

(** [get_staged_diff], on what [git diff --staged] reports *)
Definition get_staged_diff (diff : completed) : string :=
  let (success, diff_output) := run_git_command diff in
  if negb success then "" else diff_output.

(** [sum(len(files) for files in changes.values())] of [main] *)
Definition total_changes (ch : changes) : nat :=
  (length (added ch) + length (modified ch) + length (deleted ch)
   + length (renamed ch))%nat.

(** [os.path.dirname] *)
Definition dirname (p : string) : string :=
  let i := rfind "/" p + 1 in
  let head := String.substring 0 (Z.to_nat i) p in
  if negb (String.eqb head "") && negb (String.eqb head (str_repeat "/" (py_len head)))
  then rstrip "/" head else head.

Definition common_dirs : list string := ["src"; "lib"; "test"; "tests"; "docs"].

(** What one file adds to [scopes] *)
Definition scope_of (file_path : string) : list string :=
  let dir_name := dirname file_path in
  if negb (String.eqb dir_name "") && negb (String.eqb dir_name ".") then
    let scope_candidate := hd "" (split_char "/" dir_name) in
    if bool_decide (scope_candidate ∈ common_dirs) then [] else [scope_candidate]
  else [].

(** [changes['added'] + changes['modified'] + changes['deleted'] +
    changes['renamed']], also the order of [changes.values()] *)
Definition all_files (ch : changes) : list string :=
  added ch ++ modified ch ++ deleted ch ++ renamed ch.

Definition scopes_of (ch : changes) : list string :=
  flat_map scope_of (all_files ch).

(** The chain of tests that sets [analysis['type']] *)
Definition commit_type (ch : changes) (diff : string) : string :=
  if existsb (fun f => str_contains "test" (lower f) || str_contains "spec" (lower f))
             (all_files ch) then "test"
  else if existsb (fun f => endswith f ".md" || endswith f ".rst" || endswith f ".txt"
                            || str_contains "doc" (lower f))
                  (all_files ch) then "docs"
  else if negb (bool_decide (added ch = [])) && (100 <? py_len diff) then "feat"
  else if str_contains "fix" (lower diff) || str_contains "error" (lower diff)
          || str_contains "null" (lower diff) || str_contains "exception" (lower diff)
       then "fix"
  else if str_contains "refactor" (lower diff) || str_contains "cleanup" (lower diff)
          || str_contains "reorganize" (lower diff)
       then "refactor"
  else "chore".

(** The lines of [analysis['details']] *)
Definition details_of (ch : changes) : list string :=
  (if bool_decide (added ch = []) then []
   else ["Add " +:+ str_of_int (Z.of_nat (length (added ch))) +:+ " new file(s)"]) ++
  (if bool_decide (modified ch = []) then []
   else ["Modify " +:+ str_of_int (Z.of_nat (length (modified ch))) +:+ " file(s)"]) ++
  (if bool_decide (deleted ch = []) then []
   else ["Delete " +:+ str_of_int (Z.of_nat (length (deleted ch))) +:+ " file(s)"]).

(** The dictionary [analysis] *)
Record analysis : Type := Analysis {
  type : string;
  scope : option string;
  description : string;
  details : list string }.

Section analyze_changes.
(** The order in which Python iterates over [set(scopes)]: it depends on the
    hashes of the strings and is not fixed by the program. [None] for the
    scope of a result is the [ValueError] of [max] on an empty iterable. *)
Context (set_order : list string -> list string).

(** [max(set(scopes), key=scopes.count)] *)
Definition most_frequent (scopes : list string) : option string :=
  match set_order scopes with
  | [] => None
  | x :: r => Some (max_by (fun y => list_count y scopes) x r)
  end.

(** [analyze_changes]; the outer [option] is the exception of [max] *)
Definition analyze_changes (ch : changes) (diff : string) : option analysis :=
  let scopes := scopes_of ch in
  sc ← (if bool_decide (scopes = []) then Some None
        else Some <$> most_frequent scopes);
  Some (Analysis (commit_type ch diff) sc "" (details_of ch)).
End analyze_changes.

(** [generate_commit_message] *)
Definition generate_commit_message (a : analysis) : string :=
  let type_desc := default "Maintenance tasks" (commit_types !! type a) in
  let main_line :=
    match scope a with
    | Some sc =>
        if String.eqb sc "" then type a +:+ ": " +:+ lower type_desc
        else type a +:+ "(" +:+ sc +:+ "): " +:+ lower type_desc
    | None => type a +:+ ": " +:+ lower type_desc
    end in
  join_lines ([main_line; ""] ++ map (fun detail => "- " +:+ detail) (details a)).

End CommitHelper.

(** ** [find_entry_points.py] *)

Module EntryPoints.

Section analyze_routes.
(** [find_api_endpoints], which reads a file and matches it against regular
    expressions, is taken as it is: any function from paths to lists of
    endpoint records *)
Context {endpoint : Type} (find_api_endpoints : string -> list endpoint).

(** [analyze_routes]: the pair of ['total'] and ['endpoints'] *)
Definition analyze_routes (route_files : list string) : Z * list endpoint :=
  let endpoints := flat_map find_api_endpoints (take 10 route_files) in
  (Z.of_nat (length endpoints), take 20 endpoints).
End analyze_routes.

End EntryPoints.

(** ** [detect_tech_stack.py] *)

Module TechStack.

(** [DEPENDENCY_FILES], in the order of the dictionary *)
Definition DEPENDENCY_FILES : list (string * string) := [
  ("package.json", "npm/yarn/pnpm"); ("package-lock.json", "npm");
  ("yarn.lock", "yarn"); ("pnpm-lock.yaml", "pnpm");
  ("requirements.txt", "pip"); ("setup.py", "pip");
  ("pyproject.toml", "pip/pep518"); ("Pipfile", "pipenv");
  ("poetry.lock", "poetry"); ("go.mod", "go modules"); ("go.sum", "go modules");
  ("Cargo.toml", "cargo"); ("Cargo.lock", "cargo"); ("pom.xml", "maven");
  ("build.gradle", "gradle"); ("build.gradle.kts", "gradle");
  ("Gemfile", "bundler"); ("Gemfile.lock", "bundler");
  ("composer.json", "composer")].

(** [FRAMEWORK_PATTERNS], in the order of the dictionary *)
Definition FRAMEWORK_PATTERNS : list (string * list string) := [
  ("react", ["react"; "@types/react"]); ("vue", ["vue"; "@vue/*"]);
  ("angular", ["@angular/*"]); ("svelte", ["svelte"]); ("next.js", ["next"]);
  ("nuxt", ["nuxt"]); ("gatsby", ["gatsby"]); ("express", ["express"]);
  ("koa", ["koa"]); ("nest", ["@nestjs/*"]); ("remix", ["@remix-run/*"]);
  ("astro", ["astro"]); ("solid", ["solid-js"]); ("preact", ["preact"]);
  ("vite", ["vite"]); ("webpack", ["webpack"]); ("rollup", ["rollup"]);
  ("esbuild", ["esbuild"]); ("tailwind", ["tailwindcss"; "@tailwindcss/*"]);
  ("bootstrap", ["bootstrap"]); ("material-ui", ["@mui/*"; "@material-ui/*"]);
  ("ant-design", ["antd"]); ("chakra-ui", ["@chakra-ui/*"]);
  ("django", ["django"]); ("flask", ["flask"]); ("fastapi", ["fastapi"]);
  ("tornado", ["tornado"]); ("pyramid", ["pyramid"]); ("sanic", ["sanic"]);
  ("aiohttp", ["aiohttp"]); ("celery", ["celery"]); ("sqlalchemy", ["sqlalchemy"]);
  ("pandas", ["pandas"]); ("numpy", ["numpy"]);
  ("scikit-learn", ["scikit-learn"; "sklearn"]); ("pytest", ["pytest"]);
  ("black", ["black"]); ("mypy", ["mypy"]);
  ("gin", ["github.com/gin-gonic/gin"]); ("echo", ["github.com/labstack/echo"]);
  ("fiber", ["github.com/gofiber/fiber"]); ("gorilla", ["github.com/gorilla/*"]);
  ("actix", ["actix-web"; "actix-*"]); ("rocket", ["rocket"]); ("tokio", ["tokio"]);
  ("serde", ["serde"]);
  ("spring", ["org.springframework.*"]); ("spring-boot", ["org.springframework.boot"]);
  ("hibernate", ["org.hibernate"]); ("junit", ["junit"]); ("mockito", ["org.mockito"]);
  ("rails", ["rails"]); ("sinatra", ["sinatra"]); ("rspec", ["rspec"]);
  ("rubocop", ["rubocop"]);
  ("laravel", ["laravel/*"]); ("symfony", ["symfony/*"]); ("wordpress", ["wordpress"])].

Section detect_package_manager.
(** [path.exists()], asked of the file system *)
Context (path_exists : string -> bool).

Fixpoint first_manager (project_path : string) (files : list (string * string))
    : string :=
  match files with
  | [] => "Unknown"
  | (file, manager) :: rest =>
      if path_exists (joinpath project_path file) then manager
      else first_manager project_path rest
  end.

(** [detect_package_manager] *)
Definition detect_package_manager (project_path : string) : string :=
  first_manager project_path DEPENDENCY_FILES.
End detect_package_manager.

(** The test of one pattern in [detect_frameworks]: a pattern with a star is
    a prefix of some dependency once the stars are removed, another pattern
    is a dependency *)
Definition pattern_found (dependencies : gmap string string) (pattern : string) : bool :=
  if str_contains "*" pattern then
    let prefix := remove_char "*" pattern in
    existsb (fun dep => startswith dep prefix) (map_to_list dependencies).*1
  else bool_decide (is_Some (dependencies !! pattern)).

(** The list [frameworks] before it is sorted *)
Definition frameworks_found (dependencies : gmap string string)
    (table : list (string * list string)) : list string :=
  flat_map (fun entry : string * list string =>
              if existsb (pattern_found dependencies) entry.2 then [entry.1] else [])
           table.

(** [detect_frameworks]: [sorted(set(frameworks))], which does not depend
    on the order of the set *)
Definition detect_frameworks (dependencies : gmap string string) : list string :=
  sorted (fun fw : string => (false, fw))
         (remove_dups (frameworks_found dependencies FRAMEWORK_PATTERNS)).

(** What reading a text file line by line gives: the lines read, and the
    exception that ended the reading, if any; a file that cannot be opened
    gives no line *)
Definition reading : Type := list string * option exn.

(** The class [[<>=!~\s]] of [parse_requirements_txt] *)
Definition is_specifier (a : ascii) : bool :=
  Ascii.eqb a "<" || Ascii.eqb a ">" || Ascii.eqb a "=" || Ascii.eqb a "!"
  || Ascii.eqb a "~" || is_space a.

(** The body of the loop of [parse_requirements_txt] *)
Definition requirement (deps : gmap string string) (raw : string) : gmap string string :=
  let line := strip raw in
  if negb (String.eqb line "") && negb (startswith line "#") then
    let package := lower (take_until is_specifier line) in
    if negb (String.eqb package "") then <[package := line]> deps else deps
  else deps.

(** [parse_requirements_txt]: [except Exception: pass] keeps what was read *)
Definition parse_requirements_txt (f : reading) : gmap string string :=
  foldl requirement ∅ f.1.

(** The loop of [parse_go_mod] *)
Fixpoint go_mod_lines (lines : list string) (in_require : bool)
    (deps : gmap string string) : gmap string string :=
  match lines with
  | [] => deps
  | raw :: rest =>
      let line := strip raw in
      if startswith line "require" then go_mod_lines rest true deps
      else if in_require then
        if String.eqb line ")" then deps
        else match split_ws line with
             | p0 :: p1 :: _ => go_mod_lines rest in_require (<[p0 := p1]> deps)
             | _ => go_mod_lines rest in_require deps
             end
      else go_mod_lines rest in_require deps
  end.

(** [parse_go_mod] *)
Definition parse_go_mod (f : reading) : gmap string string :=
  go_mod_lines f.1 false ∅.

(** [LANGUAGE_EXTENSIONS]; the literal gives [swift] twice, with one value *)
Definition LANGUAGE_EXTENSIONS : gmap string string :=
  list_to_map [
    ("py", "Python"); ("js", "JavaScript"); ("jsx", "JavaScript (React)");
    ("ts", "TypeScript"); ("tsx", "TypeScript (React)"); ("vue", "Vue");
    ("go", "Go"); ("rs", "Rust"); ("java", "Java"); ("kt", "Kotlin");
    ("kts", "Kotlin"); ("c", "C"); ("cpp", "C++"); ("h", "C"); ("hpp", "C++");
    ("cs", "C#"); ("swift", "Swift"); ("rb", "Ruby"); ("php", "PHP");
    ("scala", "Scala"); ("dart", "Dart"); ("lua", "Lua"); ("r", "R");
    ("m", "Objective-C"); ("mm", "Objective-C++"); ("swift", "Swift");
    ("sql", "SQL"); ("sh", "Shell"); ("bash", "Bash"); ("zsh", "Zsh");
    ("ps1", "PowerShell")].

(** The directories that [detect_languages] removes from [dirs] *)
Definition ignored_dirs : gset string :=
  list_to_set ["node_modules"; "__pycache__"; ".git"; "vendor"; "dist"; "build";
               ".next"; ".nuxt"; "target"; "bin"].

(** The body of the loop over [files] *)
Definition count_language (counts : gmap string Z) (file : string) : gmap string Z :=
  match LANGUAGE_EXTENSIONS !! path_ext file with
  | Some lang => <[lang := default 0 (counts !! lang) + 1]> counts
  | None => counts
  end.

(** The names [os.walk] puts in [files]: the entries that are no directory *)
Definition walk_files (entries : list (string * fsnode)) : list string :=
  (filter (fun en : string * fsnode => is_dir en.2 = false) entries).*1.

(** The loop over [os.walk(project_path)], top down: the files of a
    directory are counted, then the directories left in [dirs] are walked;
    a directory that cannot be listed is passed over, as [os.walk] does
    without an [onerror] handler. Symbolic links, which [os.walk] lists but
    does not follow, are not in the model of the file system. *)
Fixpoint walk_languages (f : fsnode) (counts : gmap string Z) : gmap string Z :=
  match f with
  | Dir (Return entries) =>
      (fix each (l : list (string * fsnode)) (counts : gmap string Z)
         : gmap string Z :=
         match l with
         | [] => counts
         | (nm, c) :: r =>
             if is_dir c && negb (bool_decide (nm ∈ ignored_dirs))
             then each r (walk_languages c counts)
             else each r counts
         end) entries (foldl count_language counts (walk_files entries))
  | _ => counts
  end.

(** [detect_languages] *)
Definition detect_languages (project : fsnode) : gmap string Z :=
  walk_languages project ∅.

(** Empty every directory with an ignored name below the root *)
Fixpoint prune_ignored (f : fsnode) : fsnode :=
  match f with
  | Dir (Return entries) =>
      Dir (Return (map (fun en : string * fsnode =>
                          (en.1, if is_dir en.2 && bool_decide (en.1 ∈ ignored_dirs)
                                 then Dir (Return [])
                                 else prune_ignored en.2))
                       entries))
  | _ => f
  end.

End TechStack.

(** * Properties *)

(** The tables are looked up by name in the general proofs and evaluated
    only on concrete inputs. *)
#[local] Opaque KEY_DIRECTORIES CODE_EXTENSIONS skip_dirs.
#[local] Opaque TechStack.LANGUAGE_EXTENSIONS TechStack.ignored_dirs.

(** ** The order of the sort keys *)

Lemma string_leb_iff (a b : string) :
  String.leb a b = true <-> a = b \/ OrderedTypeEx.String_as_OT.lt a b.
Proof.
  unfold String.leb.
  destruct (String.compare a b) eqn:E.
  - apply OrderedTypeEx.String_as_OT.cmp_eq in E. tauto.
  - apply OrderedTypeEx.String_as_OT.cmp_lt in E. tauto.
  - split; [discriminate|].
    intros [->|H].
    + assert (String.compare b b = Eq) as E'
        by (by apply OrderedTypeEx.String_as_OT.cmp_eq).
      congruence.
    + apply OrderedTypeEx.String_as_OT.cmp_lt in H.
      unfold OrderedTypeEx.String_as_OT.cmp in H. congruence.
Qed.

Lemma string_leb_refl (a : string) : String.leb a a = true.
Proof. apply string_leb_iff. by left. Qed.

Lemma string_leb_trans (a b c : string) :
  String.leb a b = true -> String.leb b c = true -> String.leb a c = true.
Proof.
  rewrite !string_leb_iff.
  intros [->|Hab] [->|Hbc]; auto.
  right. eapply OrderedTypeEx.String_as_OT.lt_trans; eauto.
Qed.

Lemma key_le_refl (a : bool * string) : key_le a a = true.
Proof. destruct a as [[] s]; apply string_leb_refl. Qed.

Lemma key_le_trans (a b c : bool * string) :
  key_le a b = true -> key_le b c = true -> key_le a c = true.
Proof.
  destruct a as [[] a], b as [[] b], c as [[] c]; unfold key_le; simpl;
    try done; apply string_leb_trans.
Qed.

Lemma key_le_total (a b : bool * string) :
  key_le a b = true \/ key_le b a = true.
Proof.
  destruct a as [[] a], b as [[] b]; unfold key_le; simpl; auto;
    apply String.leb_total.
Qed.

(** ** [sorted] *)

Section sorted_facts.
Context {A : Type} (key : A -> bool * string).

Lemma insert_sorted_perm (x : A) (l : list A) :
  insert_sorted key x l ≡ₚ x :: l.
Proof.
  induction l as [|y r IH]; simpl; [done|].
  destruct (key_le (key x) (key y)); [done|].
  rewrite IH. apply Permutation_swap.
Qed.

Lemma sorted_perm (l : list A) : sorted key l ≡ₚ l.
Proof.
  induction l as [|x l IH]; simpl; [done|].
  by rewrite insert_sorted_perm, IH.
Qed.

Lemma insert_sorted_strongly (x : A) (l : list A) :
  StronglySorted (key_rel key) l -> StronglySorted (key_rel key) (insert_sorted key x l).
Proof.
  induction l as [|y r IH]; intros Hs; simpl.
  - repeat constructor.
  - apply StronglySorted_cons in Hs as [Hy Hr].
    destruct (key_le (key x) (key y)) eqn:E.
    + apply StronglySorted_cons. split.
      * constructor; [done|].
        eapply Forall_impl; [exact Hy|].
        intros z Hz. unfold key_rel in *. by eapply key_le_trans.
      * by apply StronglySorted_cons.
    + apply StronglySorted_cons. split; [|auto].
      rewrite insert_sorted_perm. constructor; [|done].
      unfold key_rel. destruct (key_le_total (key x) (key y)); congruence.
Qed.

Lemma sorted_strongly (l : list A) : StronglySorted (key_rel key) (sorted key l).
Proof.
  induction l as [|x l IH]; simpl; [constructor|].
  by apply insert_sorted_strongly.
Qed.

Lemma elem_of_sorted (x : A) (l : list A) : x ∈ sorted key l <-> x ∈ l.
Proof. by rewrite sorted_perm. Qed.
End sorted_facts.


(** ** Induction on nodes *)

Lemma node_children_ind (P : node -> Prop) :
  (forall n, Forall P (child_nodes n) -> P n) -> forall n, P n.
Proof.
  intros step. fix IH 1. intros n. apply step.
  destruct n as [nm ty p cs lc k]. unfold child_nodes. simpl.
  induction cs as [|[s|c] r IHr]; simpl.
  - constructor.
  - exact IHr.
  - constructor; [apply IH | exact IHr].
Qed.

Lemma nodes_from_children (d : Z) (n : node) :
  nodes_from d n = (d, n) :: mjoin (nodes_from (d + 1) <$> child_nodes n).
Proof.
  destruct n as [nm ty p cs lc k]. unfold child_nodes. simpl. f_equal.
  induction cs as [|[s|c] r IH]; simpl; [done|done|].
  by rewrite IH.
Qed.

(** ** The line counter *)

Lemma sum_ones_length {A} (f : list A) : sum_ones f = Z.of_nat (length f).
Proof. induction f as [|x f IH]; simpl; [done|]. rewrite IH. lia. Qed.

Lemma count_lines_returns (content : result (list string)) :
  exists n, count_lines content = Return n /\ 0 <= n.
Proof.
  destruct content as [f|e]; simpl.
  - exists (sum_ones f). split; [done|]. rewrite sum_ones_length. lia.
  - by exists 0.
Qed.

(** ** The recursion of the builder *)

Lemma levels_left_step (max_depth d : Z) :
  d <= max_depth -> levels_left max_depth d = S (levels_left max_depth (d + 1)).
Proof. unfold levels_left. lia. Qed.

(** The equation of the Python function: below the depth test, the body
    with [analyze_directory] itself as the recursive call *)
Lemma analyze_directory_eq (p : string) (f : fsnode) (max_depth : Z)
    (include_hidden : bool) (d : Z) :
  analyze_directory p f max_depth include_hidden d =
    if d >? max_depth then Return None
    else analyze_node
           (fun q c => analyze_directory q c max_depth include_hidden (d + 1))
           p f include_hidden.
Proof.
  unfold analyze_directory. destruct (d >? max_depth) eqn:E.
  - by destruct (levels_left max_depth d); simpl; rewrite E.
  - rewrite levels_left_step by lia. simpl. by rewrite E.
Qed.

Lemma for_items_ext (a1 a2 : string -> fsnode -> result (option node))
    (items : list (string * fsnode)) (chn : list (string + node)) (lc : Z) :
  (forall item, item ∈ items -> a1 item.1 item.2 = a2 item.1 item.2) ->
  for_items a1 items chn lc = for_items a2 items chn lc.
Proof.
  revert chn lc. induction items as [|item rest IH]; intros chn lc Hext; simpl; [done|].
  rewrite <- (Hext item) by left.
  destruct (a1 item.1 item.2) as [[child|]|e]; try done;
    apply IH; intros; apply Hext; by right.
Qed.

Lemma analyze_node_ext (r1 r2 : string -> fsnode -> result (option node))
    (p : string) (f : fsnode) (include_hidden : bool) :
  (forall q c, r1 q c = r2 q c) ->
  analyze_node r1 p f include_hidden = analyze_node r2 p f include_hidden.
Proof.
  intros Hext. unfold analyze_node, process_children.
  destruct f as [content|[entries|e]]; try done.
  by rewrite (for_items_ext r1 r2) by (intros; apply Hext).
Qed.

(** More levels than the depth test lets through change nothing *)
Lemma analyze_levels_enough (levels : nat) (p : string) (f : fsnode)
    (max_depth : Z) (include_hidden : bool) (d : Z) :
  (levels_left max_depth d <= levels)%nat ->
  analyze_levels levels p f max_depth include_hidden d =
    analyze_directory p f max_depth include_hidden d.
Proof.
  revert p f d. induction levels as [|levels IH]; intros p f d Hl.
  - unfold analyze_directory.
    by assert (levels_left max_depth d = O) as -> by lia.
  - rewrite analyze_directory_eq. simpl.
    destruct (d >? max_depth) eqn:E; [done|].
    apply analyze_node_ext. intros q c. apply IH.
    rewrite levels_left_step in Hl; lia.
Qed.

(** ** The loop over the entries *)

Lemma for_items_collect (analyze : string -> fsnode -> result (option node))
    (items : list (string * fsnode)) (chn : list (string + node)) (lc : Z) :
  for_items analyze items chn lc =
    (chn ++ (inr <$> (collect analyze items).1),
     lc + sum_line_counts (collect analyze items).1,
     (collect analyze items).2).
Proof.
  revert chn lc. induction items as [|item rest IH]; intros chn lc; simpl.
  - by rewrite app_nil_r, Z.add_0_r.
  - destruct (analyze item.1 item.2) as [[child|]|e]; simpl.
    + rewrite IH, <- app_assoc. simpl. do 2 f_equal. lia.
    + apply IH.
    + by rewrite app_nil_r, Z.add_0_r.
Qed.

Lemma collect_from (analyze : string -> fsnode -> result (option node))
    (items : list (string * fsnode)) (c : node) :
  c ∈ (collect analyze items).1 ->
  exists item, item ∈ items /\ analyze item.1 item.2 = Return (Some c).
Proof.
  induction items as [|item rest IH]; simpl; [by intros ?%elem_of_nil|].
  destruct (analyze item.1 item.2) as [[child|]|e] eqn:E; simpl.
  - intros [->|Hin]%elem_of_cons.
    + exists item. split; [left|done].
    + destruct (IH Hin) as (it & ? & ?). exists it. split; [by right|done].
  - intros Hin. destruct (IH Hin) as (it & ? & ?). exists it. split; [by right|done].
  - by intros ?%elem_of_nil.
Qed.

Lemma collect_raised (analyze : string -> fsnode -> result (option node))
    (items : list (string * fsnode)) (e : exn) :
  (collect analyze items).2 = Some e ->
  exists item, item ∈ items /\ analyze item.1 item.2 = Raise e.
Proof.
  induction items as [|item rest IH]; simpl; [done|].
  destruct (analyze item.1 item.2) as [[child|]|e'] eqn:E; simpl.
  - intros Hr. destruct (IH Hr) as (it & ? & ?). exists it. split; [by right|done].
  - intros Hr. destruct (IH Hr) as (it & ? & ?). exists it. split; [by right|done].
  - intros [= ->]. exists item. split; [left|done].
Qed.

(** The kept nodes are in the order of the items, when every node has the
    key of the item it comes from *)
Lemma collect_sorted (analyze : string -> fsnode -> result (option node))
    (key : string * fsnode -> bool * string) (items : list (string * fsnode)) :
  (forall item c, item ∈ items -> analyze item.1 item.2 = Return (Some c) ->
     node_key c = key item) ->
  StronglySorted (key_rel key) items ->
  StronglySorted (key_rel node_key) (collect analyze items).1.
Proof.
  intros Hkey Hs. induction Hs as [|item rest Hs IH Hall]; simpl; [constructor|].
  assert (StronglySorted (key_rel node_key) (collect analyze rest).1) as Hrest.
  { apply IH. intros it c ? ?. apply Hkey; [by right|done]. }
  destruct (analyze item.1 item.2) as [[child|]|e] eqn:E; simpl; [|done|constructor].
  constructor; [done|].
  apply Forall_forall. intros c Hc.
  destruct (collect_from _ _ _ Hc) as (it & Hit & Eit).
  unfold key_rel.
  rewrite (Hkey item child), (Hkey it c); [|by right|done|left|done].
  rewrite Forall_forall in Hall. by apply Hall.
Qed.

(** ** What the builder raises *)

(** The file branch raises nothing and the directory branch lets only the
    exceptions through that its handler does not catch *)
Lemma analyze_node_not_permission_error
    (recurse : string -> fsnode -> result (option node))
    (p : string) (f : fsnode) (include_hidden : bool) (e : exn) :
  analyze_node recurse p f include_hidden = Raise e ->
  is_permission_error e = false.
Proof.
  unfold analyze_node. destruct f as [content|listing].
  - destruct (count_lines_returns content) as (n & -> & _).
    by case_bool_decide.
  - destruct (negb include_hidden && hidden_name (path_name p)); [done|].
    case_bool_decide; [done|].
    destruct (process_children recurse p listing) as [[chn lc] [e'|]]; [|done].
    destruct (is_permission_error e') eqn:E; [done|]. by intros [= <-].
Qed.

Lemma analyze_directory_not_permission_error (p : string) (f : fsnode)
    (max_depth : Z) (include_hidden : bool) (d : Z) (e : exn) :
  analyze_directory p f max_depth include_hidden d = Raise e ->
  is_permission_error e = false.
Proof.
  rewrite analyze_directory_eq. destruct (d >? max_depth); [done|].
  apply analyze_node_not_permission_error.
Qed.

(** ** The shape of a built node *)

Lemma child_nodes_inr (nm : string) (ty : node_type) (p : string)
    (kept : list node) (lc : Z) (k : bool) :
  child_nodes (Node nm ty p (inr <$> kept) lc k) = kept.
Proof.
  unfold child_nodes. simpl.
  induction kept as [|c r IH]; simpl; [done|]. f_equal. exact IH.
Qed.

Lemma analyze_directory_file (p : string) (content : result (list string))
    (max_depth : Z) (include_hidden : bool) (d : Z) :
  analyze_directory p (File content) max_depth include_hidden d =
    if d >? max_depth then Return None
    else Return (Some (Node (path_name p) TFile p []
           (if bool_decide (path_ext p ∈ CODE_EXTENSIONS)
            then match content with Return f => sum_ones f | Raise _ => 0 end
            else 0)
           false)).
Proof.
  rewrite analyze_directory_eq. destruct (d >? max_depth); [done|].
  unfold analyze_node. case_bool_decide; [|done]. by destruct content.
Qed.

(** The three ways a directory node is made: skipped by name, listing
    denied, or listed, with the nodes the loop kept *)
Lemma analyze_directory_dir (p : string) (listing : result (list (string * fsnode)))
    (max_depth : Z) (include_hidden : bool) (d : Z) (t : node) :
  analyze_directory p (Dir listing) max_depth include_hidden d = Return (Some t) ->
  d <= max_depth /\
  (include_hidden = false -> hidden_name (path_name p) = false) /\
  exists chn lc,
    t = Node (path_name p) TDir p chn lc
          (bool_decide (is_Some (KEY_DIRECTORIES !! lower (path_name p)))) /\
    ((path_name p ∈ skip_dirs /\ chn = [inl SKIPPED] /\ lc = 0) \/
     ((path_name p ∉ skip_dirs) /\ listing = Raise PermissionError /\
      chn = [inl PERMISSION_DENIED] /\ lc = 0) \/
     ((path_name p ∉ skip_dirs) /\ exists entries kept,
        listing = Return entries /\
        collect (fun q c => analyze_directory q c max_depth include_hidden (d + 1))
                (sorted_items p entries) = (kept, None) /\
        chn = inr <$> kept /\ lc = sum_line_counts kept)).
Proof.
  rewrite analyze_directory_eq.
  destruct (d >? max_depth) eqn:Ed; [done|].
  unfold analyze_node.
  destruct (negb include_hidden && hidden_name (path_name p)) eqn:Eh; [done|].
  intros Ht. split; [lia|]. split; [by intros ->|]. revert Ht.
  case_bool_decide as Hskip.
  { intros [= <-]. eexists _, _. split; [done|]. by left. }
  unfold process_children. destruct listing as [entries|e].
  - rewrite for_items_collect. simpl.
    destruct (collect _ (sorted_items p entries)) as [kept raised] eqn:Ec. simpl.
    destruct raised as [e|].
    + assert ((collect
                 (fun q c => analyze_directory q c max_depth include_hidden (d + 1))
                 (sorted_items p entries)).2 = Some e) as Hr by (by rewrite Ec).
      apply collect_raised in Hr as (item & _ & Hr).
      apply analyze_directory_not_permission_error in Hr. by rewrite Hr.
    + intros [= <-]. eexists _, _. split; [done|]. right. right.
      split; [done|]. by exists entries, kept.
  - destruct e; try done. intros [= <-]. eexists _, _. split; [done|].
    right. left. done.
Qed.

(** Every node has the sort key of the item it was built from *)
Lemma analyze_directory_key (q : string) (c : fsnode) (max_depth : Z)
    (include_hidden : bool) (d : Z) (t : node) :
  analyze_directory q c max_depth include_hidden d = Return (Some t) ->
  node_key t = item_key (q, c).
Proof.
  destruct c as [content|listing].
  - rewrite analyze_directory_file. destruct (d >? max_depth); [done|].
    by intros [= <-].
  - intros (_ & _ & chn & lc & -> & _)%analyze_directory_dir. done.
Qed.

(** ** Every node of a built tree is a built tree *)

Lemma built_children (max_depth : Z) (include_hidden : bool) (d : Z) (t : node) :
  built max_depth include_hidden d t ->
  Forall (built max_depth include_hidden (d + 1)) (child_nodes t).
Proof.
  intros (p & [content|listing] & Ht).
  - rewrite analyze_directory_file in Ht. destruct (d >? max_depth); [done|].
    injection Ht as <-. constructor.
  - apply analyze_directory_dir in Ht as (_ & _ & chn & lc & -> & Hc).
    destruct Hc as [(_ & -> & _)|[(_ & _ & -> & _)|(_ & entries & kept & _ & Ec & -> & _)]];
      try by constructor.
    rewrite child_nodes_inr. apply Forall_forall. intros c Hc.
    assert (c ∈ (collect
                   (fun q c => analyze_directory q c max_depth include_hidden (d + 1))
                   (sorted_items p entries)).1) as Hin by (by rewrite Ec).
    apply collect_from in Hin as (item & _ & Hitem).
    by exists item.1, item.2.
Qed.

Lemma built_nodes (max_depth : Z) (include_hidden : bool) (t : node) :
  forall d, built max_depth include_hidden d t ->
  Forall (fun kn => built max_depth include_hidden kn.1 kn.2) (nodes_from d t).
Proof.
  induction t as [t IH] using node_children_ind. intros d Hb.
  rewrite nodes_from_children. constructor; [done|].
  apply built_children in Hb.
  induction (child_nodes t) as [|c r IHr]; simpl; [constructor|].
  apply Forall_cons in IH as [IHc IHrest]. apply Forall_cons in Hb as [Hc Hr].
  apply Forall_app. split; [by apply IHc|by apply IHr].
Qed.

(** The local facts that hold at every built node *)
Lemma built_depth (max_depth : Z) (include_hidden : bool) (d : Z) (t : node) :
  built max_depth include_hidden d t -> d <= max_depth.
Proof.
  intros (p & [content|listing] & Ht).
  - rewrite analyze_directory_file in Ht. destruct (d >? max_depth) eqn:E; [done|lia].
  - by apply analyze_directory_dir in Ht as (? & _).
Qed.

Lemma built_rollup (max_depth : Z) (include_hidden : bool) (d : Z) (t : node) :
  built max_depth include_hidden d t ->
  type t = TDir -> line_count t = sum_line_counts (child_nodes t).
Proof.
  intros (p & [content|listing] & Ht) Hty.
  - rewrite analyze_directory_file in Ht. destruct (d >? max_depth); [done|].
    by injection Ht as <-.
  - apply analyze_directory_dir in Ht as (_ & _ & chn & lc & -> & Hc).
    destruct Hc as [(_ & -> & ->)|[(_ & _ & -> & ->)|(_ & entries & kept & _ & _ & -> & ->)]];
      try done.
    by rewrite child_nodes_inr.
Qed.

Lemma built_sorted (max_depth : Z) (include_hidden : bool) (d : Z) (t : node) :
  built max_depth include_hidden d t ->
  StronglySorted (key_rel node_key) (child_nodes t).
Proof.
  intros (p & [content|listing] & Ht).
  - rewrite analyze_directory_file in Ht. destruct (d >? max_depth); [done|].
    injection Ht as <-. constructor.
  - apply analyze_directory_dir in Ht as (_ & _ & chn & lc & -> & Hc).
    destruct Hc as [(_ & -> & _)|[(_ & _ & -> & _)|(_ & entries & kept & _ & Ec & -> & _)]];
      try by constructor.
    rewrite child_nodes_inr.
    change kept with (kept, @None exn).1. rewrite <- Ec.
    apply (collect_sorted _ item_key).
    + intros [q c] t' _ Ht'. by apply analyze_directory_key in Ht'.
    + apply sorted_strongly.
Qed.

Lemma built_not_hidden (max_depth : Z) (d : Z) (t : node) :
  built max_depth false d t ->
  type t = TDir -> hidden_name (name t) = false.
Proof.
  intros (p & [content|listing] & Ht) Hty.
  - rewrite analyze_directory_file in Ht. destruct (d >? max_depth); [done|].
    by injection Ht as <-.
  - apply analyze_directory_dir in Ht as (_ & Hh & chn & lc & -> & _). by apply Hh.
Qed.

(** ** Unreadable files *)







(** ** The JSON projection *)

Lemma to_json_eq (n : node) :
  to_json n =
    JObj [("name", JStr (name n)); ("type", JStr (type_str (type n)));
          ("path", JStr (path n));
          ("children", JArr (child_to_json <$> children n));
          ("line_count", JNum (line_count n)); ("is_key", JBool (is_key n))].
Proof.
  destruct n as [nm ty p cs lc k]. simpl.
  match goal with
  | |- context [JArr ?l] => assert (l = child_to_json <$> cs) as ->; [|done]
  end.
  induction cs as [|[s|c] r IH]; simpl; [done|by f_equal|by f_equal].
Qed.

Lemma traverse_eq (n : node) (st : stats) :
  traverse n st =
    match type n with
    | TDir => foldl (fun acc c => traverse_child c acc) (count_directory st) (children n)
    | TFile => count_file (path n) (line_count n) st
    end.
Proof.
  destruct n as [nm ty p cs lc k]. simpl. destruct ty; [|done].
  generalize (count_directory st). clear st.
  induction cs as [|[s|c] r IH]; intros st; simpl; [done|apply IH|apply IH].
Qed.

Lemma json_height_elem (x : json) (l : list json) :
  x ∈ l -> (json_height x <= foldr (fun y h => Nat.max (json_height y) h) O l)%nat.
Proof.
  induction 1 as [|x y l Hin IH]; simpl; lia.
Qed.

Lemma json_height_child (n : node) (c : string + node) :
  c ∈ children n -> (S (json_height (child_to_json c)) < json_height (to_json n))%nat.
Proof.
  intros Hin. rewrite to_json_eq. simpl.
  assert (child_to_json c ∈ child_to_json <$> children n) as Hc
    by (by apply list_elem_of_fmap_2).
  apply json_height_elem in Hc. lia.
Qed.

Lemma count_file_no_lines (p1 p2 : string) (lc : Z) (st : stats) :
  (0 <? lc) = false -> count_file p1 lc st = count_file p2 lc st.
Proof. unfold count_file. by intros ->. Qed.

Lemma traverse_json_to_json (n : node) :
  forall depth st, (json_height (to_json n) <= depth)%nat ->
    traverse_json depth (to_json n) st = Some (traverse n st).
Proof.
  induction n as [n IH] using node_children_ind. intros depth st Hd.
  destruct depth as [|depth]; [rewrite to_json_eq in Hd; simpl in Hd; lia|].
  rewrite traverse_eq.
  assert (forall c, c ∈ children n ->
            (S (json_height (child_to_json c)) < S depth)%nat) as Hch.
  { intros c Hc. apply json_height_child in Hc. lia. }
  rewrite to_json_eq. simpl. destruct (type n) eqn:Ety; simpl.
  - assert (Forall (fun c => forall st',
              traverse_json depth (child_to_json c) st' = Some (traverse_child c st'))
              (children n)) as Hall.
    { apply Forall_forall. intros [s|m] Hc st'.
      - specialize (Hch _ Hc). destruct depth; [simpl in Hch; lia|done].
      - simpl. rewrite Forall_forall in IH. apply IH.
        + unfold child_nodes. apply list_elem_of_omap. by exists (inr m).
        + specialize (Hch _ Hc). simpl in Hch. lia. }
    clear Hch IH Hd. generalize (count_directory st). intros st0.
    revert st0. induction Hall as [|c r Hc Hall IHr]; intros st0; simpl; [done|].
    rewrite Hc. apply IHr.
  - destruct (0 <? line_count n) eqn:E; [done|].
    f_equal. by apply count_file_no_lines.
Qed.

(** ** The claims about built trees *)

Lemma built_root (p : string) (f : fsnode) (max_depth : Z) (include_hidden : bool)
    (t : node) :
  analyze_directory p f max_depth include_hidden 0 = Return (Some t) ->
  built max_depth include_hidden 0 t.
Proof. intros Ht. by exists p, f. Qed.

Lemma built_node_of_tree (max_depth : Z) (include_hidden : bool) (t n : node) :
  built max_depth include_hidden 0 t -> n ∈ nodes t ->
  exists k, built max_depth include_hidden k n.
Proof.
  intros Hb Hn. apply built_nodes in Hb. rewrite Forall_forall in Hb.
  unfold nodes in Hn. apply list_elem_of_fmap in Hn as ([k m] & -> & Hin).
  exists k. by apply (Hb (k, m)).
Qed.

Lemma project_tree_built :
  analyze_directory project_root project 3 false 0 = Return (Some project_tree).
Proof. vm_compute. reflexivity. Qed.

(** C1. In every tree the builder returns, whatever the root path, the
    maximum depth and the hidden flag, the line count of every directory
    node is the sum of the line counts of its direct children. *)
Theorem rollup_invariant (p : string) (f : fsnode) (max_depth : Z)
    (include_hidden : bool) (t n : node) :
  analyze_directory p f max_depth include_hidden 0 = Return (Some t) ->
  n ∈ nodes t ->
  type n = TDir ->
  line_count n = sum_line_counts (child_nodes n).
Proof.
  intros Ht Hn Hty. apply built_root in Ht.
  destruct (built_node_of_tree _ _ _ _ Ht Hn) as (k & Hk).
  by eapply built_rollup.
Qed.

Lemma rollup_invariant_witness :
  line_count project_tree = sum_line_counts (child_nodes project_tree).
Proof.
  apply (rollup_invariant project_root project 3 false project_tree project_tree).
  - vm_compute. reflexivity.
  - vm_compute. left.
  - reflexivity.
Defined.


Lemma strongly_sorted_lookup {A : Type} (R : relation A) (l : list A)
    (i j : nat) (a b : A) :
  StronglySorted R l -> l !! i = Some a -> l !! j = Some b -> (i < j)%nat -> R a b.
Proof.
  intros Hs. revert i j. induction Hs as [|x l Hs IH Hall]; intros i j Hi Hj Hlt.
  - by rewrite lookup_nil in Hi.
  - destruct j as [|j]; [lia|]. simpl in Hj. destruct i as [|i]; simpl in Hi.
    + injection Hi as ->. rewrite Forall_forall in Hall.
      apply Hall. by eapply list_elem_of_lookup_2.
    + apply (IH i j); [done|done|lia].
Qed.

(** C5. In every node of a built tree the children that are nodes come
    directories first, and two children of the same kind are in ascending
    order of name: of two children, the later one is a file whenever the
    earlier one is, and has the greater or equal name when both are of one
    kind. *)
Theorem children_ordered (p : string) (f : fsnode) (max_depth : Z)
    (include_hidden : bool) (t n : node) (i j : nat) (a b : node) :
  analyze_directory p f max_depth include_hidden 0 = Return (Some t) ->
  n ∈ nodes t ->
  child_nodes n !! i = Some a ->
  child_nodes n !! j = Some b ->
  (i < j)%nat ->
  (type a = TFile -> type b = TFile) /\
  (type a = type b -> String.leb (name a) (name b) = true).
Proof.
  intros Ht Hn Ha Hb Hlt. apply built_root in Ht.
  destruct (built_node_of_tree _ _ _ _ Ht Hn) as (k & Hk).
  apply built_sorted in Hk.
  pose proof (strongly_sorted_lookup _ _ _ _ _ _ Hk Ha Hb Hlt) as Hab.
  unfold key_rel, node_key, key_le in Hab. simpl in Hab.
  destruct (type a), (type b); try done; split; auto; done.
Qed.

Lemma children_ordered_witness :
  (TDir = TFile -> TDir = TFile) /\
  (TDir = TDir -> String.leb "node_modules" "src" = true).
Proof.
  apply (children_ordered project_root project 3 false project_tree project_tree
           0 1
           (Node "node_modules" TDir "/home/u/proj/node_modules" [inl "<skipped>"] 0 true)
           (Node "src" TDir "/home/u/proj/src"
              [inr (Node "a.py" TFile "/home/u/proj/src/a.py" [] 10 false);
               inr (Node "b.py" TFile "/home/u/proj/src/b.py" [] 5 false)]
              15 true)).
  - vm_compute. reflexivity.
  - vm_compute. left.
  - reflexivity.
  - reflexivity.
  - lia.
Defined.

(** C3 fails for files: the hidden rule stands in the directory branch only,
    so a hidden file of the root gets its node. *)
Lemma hidden_file_has_node :
  exists t n,
    analyze_directory project_root
      (Dir (Return [(".env", File (Return ["KEY=1"]))])) 3 false 0 = Return (Some t) /\
    n ∈ descendants t /\ type n = TFile /\ name n = ".env" /\
    startswith (name n) "." = true.
Proof.
  exists (Node "proj" TDir "/home/u/proj"
            [inr (Node ".env" TFile "/home/u/proj/.env" [] 0 false)] 0 false),
         (Node ".env" TFile "/home/u/proj/.env" [] 0 false).
  split; [vm_compute; reflexivity|].
  split; [vm_compute; left|]. done.
Qed.

(** C3, amended. Without the hidden flag, no directory node below the root
    has a name that begins with a dot (the name [.] apart, which the code
    exempts); files are not filtered by name: within the depth bound a file
    always gets a node. *)
Theorem no_hidden_directory (p : string) (f : fsnode) (max_depth : Z) (t n : node) :
  analyze_directory p f max_depth false 0 = Return (Some t) ->
  n ∈ descendants t ->
  (type n = TDir -> hidden_name (name n) = false) /\
  (forall q content d, d <= max_depth ->
     exists m, analyze_directory q (File content) max_depth false d = Return (Some m) /\
               name m = path_name q /\ type m = TFile).
Proof.
  intros Ht Hn. split.
  - intros Hty. apply built_root in Ht.
    assert (n ∈ nodes t) as Hn'.
    { unfold descendants in Hn. destruct (nodes t); [done|]. by right. }
    destruct (built_node_of_tree _ _ _ _ Ht Hn') as (k & Hk).
    by eapply built_not_hidden.
  - intros q content d Hd. rewrite analyze_directory_file.
    destruct (d >? max_depth) eqn:E; [lia|]. by eexists.
Qed.

Lemma no_hidden_directory_witness :
  (TDir = TDir -> hidden_name "src" = false) /\
  (forall q content d, d <= 3 ->
     exists m, analyze_directory q (File content) 3 false d = Return (Some m) /\
               name m = path_name q /\ type m = TFile).
Proof.
  apply (no_hidden_directory project_root project 3 project_tree
           (Node "src" TDir "/home/u/proj/src"
              [inr (Node "a.py" TFile "/home/u/proj/src/a.py" [] 10 false);
               inr (Node "b.py" TFile "/home/u/proj/src/b.py" [] 5 false)]
              15 true)).
  - vm_compute. reflexivity.
  - vm_compute. right. left.
Defined.


(** C4 fails for a root whose own name is in the skip set: at maximum depth
    0 its children list is not empty, it holds the marker. *)
Lemma skipped_root_keeps_marker :
  exists t,
    analyze_directory "/home/u/build"
      (Dir (Return [("sub", Dir (Return [("x.py", File (Return ["pass"]))]))]))
      0 false 0 = Return (Some t) /\
    children t = [inl "<skipped>"] /\ children t <> [].
Proof.
  exists (Node "build" TDir "/home/u/build" [inl "<skipped>"] 0 true).
  split; [vm_compute; reflexivity|]. done.
Qed.

(** C4, amended. No node of a returned tree lies deeper than the maximum
    depth. With maximum depth 0, a root directory that holds one
    subdirectory and passes the hidden rule yields the root node alone,
    whatever the subdirectory holds: its children list has no node, it is
    empty, or holds the one marker [<skipped>] when the name of the root is
    in the skip set. *)
Theorem depth_bounded (p : string) (f : fsnode) (max_depth : Z)
    (include_hidden : bool) (t : node) (sub : string)
    (listing : result (list (string * fsnode))) :
  (analyze_directory p f max_depth include_hidden 0 = Return (Some t) ->
   forall k n, (k, n) ∈ nodes_from 0 t -> 0 <= k <= max_depth) /\
  (negb include_hidden && hidden_name (path_name p) = false ->
   analyze_directory p (Dir (Return [(sub, Dir listing)])) 0 include_hidden 0 =
     Return (Some (Node (path_name p) TDir p
       (if bool_decide (path_name p ∈ skip_dirs) then [inl SKIPPED] else [])
       0 (bool_decide (is_Some (KEY_DIRECTORIES !! lower (path_name p))))))).
Proof.
  split.
  - intros Ht k n Hin. pose proof (built_root _ _ _ _ _ Ht) as Hb.
    assert (forall d t', Forall (fun kn : Z * node => d <= kn.1) (nodes_from d t')) as Hlow.
    { intros d t'. revert d.
      induction t' as [t' IH] using node_children_ind. intros d.
      rewrite nodes_from_children. constructor; [simpl; lia|].
      induction (child_nodes t') as [|c r IHr]; simpl; [constructor|].
      apply Forall_cons in IH as [IHc IHrest].
      apply Forall_app. split; [|by apply IHr].
      eapply Forall_impl; [apply IHc|]. simpl. intros; lia. }
    specialize (Hlow 0 t). rewrite Forall_forall in Hlow.
    apply built_nodes in Hb. rewrite Forall_forall in Hb.
    specialize (Hb _ Hin). apply built_depth in Hb.
    specialize (Hlow _ Hin). simpl in *. lia.
  - intros Hh.
    rewrite analyze_directory_eq. change (0 >? 0) with false. cbv iota.
    unfold analyze_node. rewrite Hh.
    case_bool_decide; [done|].
    unfold process_children, sorted_items.
    cbn [map sorted foldr insert_sorted for_items fst snd].
    rewrite analyze_directory_eq. change (0 + 1 >? 0) with true. done.
Qed.

Lemma depth_bounded_witness :
  (forall k n,
     (k, n) ∈ nodes_from 0 (Node "proj" TDir "/home/u/proj" [] 0 false) ->
     0 <= k <= 0) /\
  analyze_directory project_root
    (Dir (Return [("src", Dir (Return [("a.py", File (Return ten_lines))]))]))
    0 false 0 =
    Return (Some (Node (path_name project_root) TDir project_root
      (if bool_decide (path_name project_root ∈ skip_dirs) then [inl SKIPPED] else [])
      0 (bool_decide (is_Some (KEY_DIRECTORIES !! lower (path_name project_root)))))).
Proof.
  destruct (depth_bounded project_root
              (Dir (Return [("src", Dir (Return [("a.py", File (Return ten_lines))]))]))
              0 false (Node "proj" TDir "/home/u/proj" [] 0 false)
              "src" (Return [("a.py", File (Return ten_lines))])) as [Hdepth Hroot].
  split.
  - apply Hdepth. vm_compute. reflexivity.
  - apply Hroot. vm_compute. reflexivity.
Defined.

(** ** Skipped, denied and pruned directories *)

(** C6 fails for the names of the skip set that begin with a dot: without
    the hidden flag the hidden rule comes first, and [.git] gets no node. *)
Lemma hidden_skip_name_has_no_node :
  ".git" ∈ skip_dirs /\
  analyze_directory project_root
    (Dir (Return [(".git", Dir (Return [("HEAD", File (Return ["ref"]))]))]))
    3 false 0 =
    Return (Some (Node "proj" TDir "/home/u/proj" [] 0 false)) /\
  analyze_directory "/home/u/proj/.git"
    (Dir (Return [("HEAD", File (Return ["ref"]))])) 3 false 1 = Return None.
Proof. vm_compute. repeat split. Qed.

(** C6, amended. A directory within the depth bound that the hidden rule
    lets through gets a node with the marker [<skipped>] in place of its
    children when its name is in the skip set, and otherwise a node with the
    other marker [<permission denied>] when its listing is denied, no
    exception being raised; beyond the depth bound there is no node. A
    marked node and an absent one are different results. *)
Theorem skipped_or_denied_is_marked (p : string)
    (listing : result (list (string * fsnode))) (f : fsnode) (max_depth : Z)
    (include_hidden : bool) (d : Z) :
  let key := bool_decide (is_Some (KEY_DIRECTORIES !! lower (path_name p))) in
  (d <= max_depth -> negb include_hidden && hidden_name (path_name p) = false ->
   (path_name p ∈ skip_dirs ->
    analyze_directory p (Dir listing) max_depth include_hidden d =
      Return (Some (Node (path_name p) TDir p [inl SKIPPED] 0 key))) /\
   (path_name p ∉ skip_dirs ->
    analyze_directory p (Dir (Raise PermissionError)) max_depth include_hidden d =
      Return (Some (Node (path_name p) TDir p [inl PERMISSION_DENIED] 0 key)))) /\
  (max_depth < d ->
   analyze_directory p f max_depth include_hidden d = Return None) /\
  SKIPPED <> PERMISSION_DENIED /\
  (forall t : node, Return (Some t) <> Return None).
Proof.
  intros key. split; [|split; [|split]].
  - intros Hd Hh.
    assert ((d >? max_depth) = false) as E by lia.
    split; intros Hskip; rewrite analyze_directory_eq, E;
      unfold analyze_node; rewrite Hh.
    + by rewrite bool_decide_eq_true_2.
    + by rewrite bool_decide_eq_false_2.
  - intros Hd. rewrite analyze_directory_eq.
    destruct (d >? max_depth) eqn:E; [done|lia].
  - done.
  - done.
Qed.

Lemma skipped_or_denied_is_marked_witness :
  analyze_directory "/home/u/proj/node_modules"
    (Dir (Return [("left-pad", Dir (Return []))])) 3 false 1 =
    Return (Some (Node "node_modules" TDir "/home/u/proj/node_modules"
                    [inl "<skipped>"] 0 true)) /\
  analyze_directory "/home/u/proj/private" (Dir (Raise PermissionError)) 3 false 1 =
    Return (Some (Node "private" TDir "/home/u/proj/private"
                    [inl "<permission denied>"] 0 false)) /\
  analyze_directory "/home/u/proj/a/b/c/d" (Dir (Return [])) 3 false 4 = Return None.
Proof.
  split; [|split].
  - apply (skipped_or_denied_is_marked "/home/u/proj/node_modules"
             (Return [("left-pad", Dir (Return []))]) (File (Return [])) 3 false 1);
      [lia | reflexivity | vm_compute; reflexivity].
  - apply (skipped_or_denied_is_marked "/home/u/proj/private"
             (Return []) (File (Return [])) 3 false 1);
      [lia | reflexivity | vm_compute; discriminate].
  - apply (skipped_or_denied_is_marked "/home/u/proj/a/b/c/d"
             (Return []) (Dir (Return [])) 3 false 4). lia.
Defined.

(** ** The root *)

(** C9 does not hold in the code: the hidden rule is applied to the root as
    to any directory, and only the name [.], which no path has, is exempt.
    A root directory with a hidden name gets no node. *)
Theorem hidden_root_has_no_node (p : string)
    (listing : result (list (string * fsnode))) (max_depth d : Z) :
  hidden_name (path_name p) = true ->
  analyze_directory p (Dir listing) max_depth false d = Return None.
Proof.
  intros Hh. rewrite analyze_directory_eq.
  destruct (d >? max_depth); [done|].
  unfold analyze_node. by rewrite Hh.
Qed.

Lemma hidden_root_has_no_node_witness :
  analyze_directory "/home/u/.config"
    (Dir (Return [("settings.py", File (Return ["DEBUG = True"]))])) 3 false 0 =
    Return None.
Proof.
  apply (hidden_root_has_no_node "/home/u/.config"
           (Return [("settings.py", File (Return ["DEBUG = True"]))]) 3 0).
  vm_compute. reflexivity.
Defined.

(** C10 fails below depth 0: with a negative maximum depth the depth test
    comes first and a root that is a file gets no node. *)
Lemma file_root_negative_depth :
  analyze_directory "/home/u/main.py" (File (Return ["print(1)"])) (-1) false 0 =
    Return None.
Proof. vm_compute. reflexivity. Qed.

(** C10, amended. For a maximum depth of at least 0, a root that is a
    regular file gives a single file node with no children and [is_key]
    false; its line count is what [count_lines] returns when the extension
    is countable and 0 otherwise; the statistics of that node count no
    directory and one file. *)
Theorem file_root (p : string) (content : result (list string)) (max_depth : Z)
    (include_hidden : bool) :
  0 <= max_depth ->
  exists t n,
    analyze_directory p (File content) max_depth include_hidden 0 = Return (Some t) /\
    count_lines content = Return n /\
    t = Node (path_name p) TFile p []
          (if bool_decide (path_ext p ∈ CODE_EXTENSIONS) then n else 0) false /\
    directories (calculate_stats t) = 0 /\
    total_files (calculate_stats t) = 1.
Proof.
  intros Hd. rewrite analyze_directory_file.
  destruct (0 >? max_depth) eqn:E; [lia|].
  eexists _, (match content with Return ls => sum_ones ls | Raise _ => 0 end).
  split; [done|].
  split; [|split; [|split]].
  - by destruct content.
  - done.
  - unfold calculate_stats. simpl. unfold count_file. by case_match.
  - unfold calculate_stats. simpl. unfold count_file. by case_match.
Qed.

Lemma file_root_witness :
  exists t n,
    analyze_directory "/home/u/main.py" (File (Return five_lines)) 3 false 0 =
      Return (Some t) /\
    count_lines (Return five_lines) = Return n /\
    t = Node (path_name "/home/u/main.py") TFile "/home/u/main.py" []
          (if bool_decide (path_ext "/home/u/main.py" ∈ CODE_EXTENSIONS) then n else 0)
          false /\
    directories (calculate_stats t) = 0 /\
    total_files (calculate_stats t) = 1.
Proof.
  apply (file_root "/home/u/main.py" (Return five_lines) 3 false). lia.
Defined.

(** ** The scenario *)

Lemma fs_height_entry (entries : list (string * fsnode)) (en : string * fsnode) :
  en ∈ entries -> (S (fs_height en.2) <= fs_height (Dir (Return entries)))%nat.
Proof. simpl. induction 1 as [|x y l Hin IH]; simpl; lia. Qed.

(** A maximum depth beyond the height of the file system changes nothing *)
Lemma analyze_directory_deep (n : nat) (include_hidden : bool) :
  forall p f md1 md2 d,
    (fs_height f <= n)%nat ->
    d + Z.of_nat n <= md1 -> d + Z.of_nat n <= md2 ->
    analyze_directory p f md1 include_hidden d =
    analyze_directory p f md2 include_hidden d.
Proof.
  induction n as [n IH] using lt_wf_ind. intros p f md1 md2 d Hh H1 H2.
  rewrite !analyze_directory_eq.
  destruct (d >? md1) eqn:E1; [lia|]. destruct (d >? md2) eqn:E2; [lia|].
  destruct f as [content|[entries|e]]; [done| |done].
  unfold analyze_node, process_children.
  rewrite (for_items_ext
             (fun q c => analyze_directory q c md1 include_hidden (d + 1))
             (fun q c => analyze_directory q c md2 include_hidden (d + 1))); [done|].
  intros [q c] Hin. simpl.
  unfold sorted_items in Hin. apply elem_of_sorted in Hin.
  apply list_elem_of_fmap in Hin as (en & [= -> ->] & Hin).
  apply fs_height_entry in Hin.
  apply (IH (n - 1)%nat); lia.
Qed.




(** ** The round trip through JSON *)

(** C8. For every tree, the statistics derived from the JSON projection of
    the tree, read back, are the statistics of the tree itself: directories,
    files, code files, lines, and lines by extension. *)
Theorem stats_round_trip (t : node) :
  calculate_stats_json (to_json t) = Some (calculate_stats t).
Proof. unfold calculate_stats_json, calculate_stats. by apply traverse_json_to_json. Qed.


(** * Further properties of the builder and the aggregator *)

Lemma built_file (max_depth : Z) (include_hidden : bool) (d : Z) (t : node) :
  built max_depth include_hidden d t -> type t = TFile ->
  children t = [] /\ is_key t = false /\ 0 <= line_count t.
Proof.
  intros (p & [content|listing] & Ht) Hty.
  - rewrite analyze_directory_file in Ht. destruct (d >? max_depth); [done|].
    injection Ht as <-. simpl. repeat split.
    case_bool_decide; [|done]. destruct content as [ls|e]; [|done].
    rewrite sum_ones_length. lia.
  - by apply analyze_directory_dir in Ht as (_ & _ & chn & lc & -> & _).
Qed.

Lemma sum_line_counts_nonneg (l : list node) :
  Forall (fun c => 0 <= line_count c) l -> 0 <= sum_line_counts l.
Proof. induction 1; simpl; lia. Qed.

Lemma built_line_count_nonneg (max_depth : Z) (include_hidden : bool) (t : node) :
  forall d, built max_depth include_hidden d t -> 0 <= line_count t.
Proof.
  induction t as [t IH] using node_children_ind. intros d Hb.
  destruct (type t) eqn:Ety.
  - rewrite (built_rollup _ _ _ _ Hb Ety). apply sum_line_counts_nonneg.
    apply built_children in Hb.
    rewrite Forall_forall in IH, Hb. apply Forall_forall.
    intros c Hc. by apply (IH c Hc (d + 1)), Hb.
  - by apply (built_file _ _ _ _ Hb).
Qed.

(** X1. In every tree the builder returns, a file node is a leaf: it has no
    children, not even a marker, and is never flagged as a key directory;
    and no node has a negative line count. *)
Theorem file_nodes_are_leaves (p : string) (f : fsnode) (max_depth : Z)
    (include_hidden : bool) (t n : node) :
  analyze_directory p f max_depth include_hidden 0 = Return (Some t) ->
  n ∈ nodes t ->
  (type n = TFile -> children n = [] /\ is_key n = false) /\ 0 <= line_count n.
Proof.
  intros Ht Hn. apply built_root in Ht.
  destruct (built_node_of_tree _ _ _ _ Ht Hn) as (k & Hk). split.
  - intros Hty. by destruct (built_file _ _ _ _ Hk Hty) as (? & ? & _).
  - by eapply built_line_count_nonneg.
Qed.

Lemma file_nodes_are_leaves_witness :
  (TFile = TFile -> @nil (string + node) = [] /\ false = false) /\ 0 <= 10.
Proof.
  apply (file_nodes_are_leaves project_root project 3 false project_tree
           (Node "a.py" TFile "/home/u/proj/src/a.py" [] 10 false)).
  - vm_compute. reflexivity.
  - vm_compute. do 3 right. left.
Defined.

(** X2. The builder returns no node for the root in exactly two cases: the
    maximum depth is negative, or the root is a directory with a hidden
    name and hidden entries are not included. *)
Theorem root_has_no_node_iff (p : string) (f : fsnode) (max_depth : Z)
    (include_hidden : bool) :
  analyze_directory p f max_depth include_hidden 0 = Return None <->
  max_depth < 0 \/
  (is_dir f = true /\ include_hidden = false /\ hidden_name (path_name p) = true).
Proof.
  rewrite analyze_directory_eq. destruct (0 >? max_depth) eqn:E.
  { split; [intros _; left; lia|done]. }
  unfold analyze_node. destruct f as [content|listing]; simpl.
  - split.
    + destruct (count_lines_returns content) as (n & -> & _). by case_bool_decide.
    + intros [?|(? & _)]; [lia|done].
  - destruct include_hidden, (hidden_name (path_name p)) eqn:Eh; simpl;
      try (split; [intros _; by right|done]).
    all: split; [|intros [?|(_ & ? & ?)]; [lia|done]].
    all: case_bool_decide; [done|].
    all: destruct (process_children _ p listing) as [[chn lc] [e|]]; [|done].
    all: by destruct (is_permission_error e).
Qed.

(** ** Invariants of one traversal *)

Lemma visit_sum_eq (a : Z) (b : string -> Z -> Z) (n : node) :
  visit_sum a b n =
    match type n with
    | TDir => a + foldr (fun c acc => visit_sum a b c + acc) 0 (child_nodes n)
    | TFile => b (path n) (line_count n)
    end.
Proof.
  destruct n as [nm ty p cs lc k]. unfold child_nodes. simpl.
  destruct ty; [|done]. f_equal.
  induction cs as [|[s|c] r IH]; simpl; [done|done|]. by rewrite IH.
Qed.

(** A counter that grows by [a] at a directory and by [b] at a file *)
Lemma traverse_additive (F : stats -> Z) (a : Z) (b : string -> Z -> Z) :
  (forall st, F (count_directory st) = F st + a) ->
  (forall p lc st, F (count_file p lc st) = F st + b p lc) ->
  forall n st, F (traverse n st) = F st + visit_sum a b n.
Proof.
  intros Ha Hb. induction n as [n IH] using node_children_ind. intros st.
  rewrite traverse_eq, visit_sum_eq. destruct (type n); [|apply Hb].
  rewrite Z.add_assoc, <- Ha. generalize (count_directory st). clear st.
  unfold child_nodes in *.
  induction (children n) as [|[s|c] r IHr]; intros st; simpl in *.
  - lia.
  - by apply IHr.
  - apply Forall_cons in IH as [Hc Hr]. rewrite (IHr Hr), Hc.
    symmetry. apply Z.add_assoc.
Qed.

(** A property of the statistics that every step of the traversal keeps,
    on trees whose nodes all satisfy [Q] *)
Lemma traverse_invariant (Q : node -> Prop) (J : stats -> Prop) :
  (forall n, Q n -> Forall Q (child_nodes n)) ->
  (forall st, J st -> J (count_directory st)) ->
  (forall n st, Q n -> type n = TFile -> J st ->
     J (count_file (path n) (line_count n) st)) ->
  forall n st, Q n -> J st -> J (traverse n st).
Proof.
  intros Hq Hd Hf. induction n as [n IH] using node_children_ind.
  intros st Hn Hst. rewrite traverse_eq. destruct (type n) eqn:Ety; [|by apply Hf].
  apply Hq in Hn. apply Hd in Hst. revert Hst. generalize (count_directory st).
  clear st. unfold child_nodes in *.
  induction (children n) as [|[s|c] r IHr]; intros st Hst; simpl in *.
  - done.
  - by apply IHr.
  - apply Forall_cons in IH as [Hc Hr]. apply Forall_cons in Hn as [Qc Qr].
    apply IHr; [done|done|]. by apply Hc.
Qed.

Lemma built_visit_lines (max_depth : Z) (include_hidden : bool) (t : node) :
  forall d, built max_depth include_hidden d t ->
  visit_sum 0 (fun _ lc => if 0 <? lc then lc else 0) t = line_count t.
Proof.
  induction t as [t IH] using node_children_ind. intros d Hb.
  rewrite visit_sum_eq. destruct (type t) eqn:Ety.
  - rewrite (built_rollup _ _ _ _ Hb Ety), Z.add_0_l. apply built_children in Hb.
    induction (child_nodes t) as [|c r IHr]; simpl; [done|].
    apply Forall_cons in IH as [Hc Hr]. apply Forall_cons in Hb as [Bc Br].
    rewrite (Hc _ Bc), (IHr Hr Br). lia.
  - destruct (built_file _ _ _ _ Hb Ety) as (_ & _ & Hlc).
    destruct (0 <? line_count t) eqn:E; lia.
Qed.

(** X3. For every tree the builder returns, the total of lines that the
    aggregator reports is the line count of the root node. *)
Theorem total_lines_is_root_line_count (p : string) (f : fsnode) (max_depth : Z)
    (include_hidden : bool) (t : node) :
  analyze_directory p f max_depth include_hidden 0 = Return (Some t) ->
  total_lines (calculate_stats t) = line_count t.
Proof.
  intros Ht. apply built_root in Ht. unfold calculate_stats.
  rewrite (traverse_additive total_lines 0 (fun _ lc => if 0 <? lc then lc else 0)).
  - simpl. by eapply built_visit_lines.
  - intros st. simpl. lia.
  - intros q lc st. unfold count_file. destruct (0 <? lc); simpl; lia.
Qed.

Lemma total_lines_is_root_line_count_witness :
  total_lines (calculate_stats project_tree) = line_count project_tree.
Proof.
  apply (total_lines_is_root_line_count project_root project 3 false project_tree).
  vm_compute. reflexivity.
Defined.

Lemma length_nodes_from (d : Z) (t : node) :
  Z.of_nat (length (nodes_from d t)) =
    1 + foldr (fun c acc => Z.of_nat (length (nodes_from (d + 1) c)) + acc) 0
          (child_nodes t).
Proof.
  rewrite nodes_from_children. simpl length.
  induction (child_nodes t) as [|c r IH]; csimpl; [lia|].
  rewrite length_app. lia.
Qed.

Lemma built_visit_nodes (max_depth : Z) (include_hidden : bool) (t : node) :
  forall d k, built max_depth include_hidden d t ->
  visit_sum 1 (fun _ _ => 1) t = Z.of_nat (length (nodes_from k t)).
Proof.
  induction t as [t IH] using node_children_ind. intros d k Hb.
  rewrite visit_sum_eq, length_nodes_from. destruct (type t) eqn:Ety.
  - f_equal. apply built_children in Hb.
    induction (child_nodes t) as [|c r IHr]; simpl; [done|].
    apply Forall_cons in IH as [Hc Hr]. apply Forall_cons in Hb as [Bc Br].
    by rewrite (Hc _ (k + 1) Bc), (IHr Hr Br).
  - destruct (built_file _ _ _ _ Hb Ety) as (Hch & _).
    unfold child_nodes. by rewrite Hch.
Qed.

(** X4. For every tree the builder returns, the aggregator counts every
    node once: the directories and the files it reports add up to the
    number of nodes of the tree, and the code files are among the files. *)
Theorem stats_count_every_node (p : string) (f : fsnode) (max_depth : Z)
    (include_hidden : bool) (t : node) :
  analyze_directory p f max_depth include_hidden 0 = Return (Some t) ->
  directories (calculate_stats t) + total_files (calculate_stats t) =
    Z.of_nat (length (nodes t)) /\
  0 <= code_files (calculate_stats t) <= total_files (calculate_stats t).
Proof.
  intros Ht. apply built_root in Ht. unfold calculate_stats. split.
  - rewrite (traverse_additive (fun st => directories st + total_files st)
               1 (fun _ _ => 1)).
    + unfold nodes. rewrite length_fmap. simpl. by eapply built_visit_nodes.
    + intros st. simpl. lia.
    + intros q lc st. unfold count_file. destruct (0 <? lc); simpl; lia.
  - apply (traverse_invariant (fun _ => True)
             (fun st => 0 <= code_files st <= total_files st)); try done.
    + intros n _. by apply Forall_forall.
    + intros n st _ _ Hst. unfold count_file.
      destruct (0 <? line_count n); simpl; lia.
Qed.

Lemma stats_count_every_node_witness :
  directories (calculate_stats project_tree) + total_files (calculate_stats project_tree) =
    Z.of_nat (length (nodes project_tree)) /\
  0 <= code_files (calculate_stats project_tree)
    <= total_files (calculate_stats project_tree).
Proof.
  apply (stats_count_every_node project_root project 3 false project_tree).
  vm_compute. reflexivity.
Defined.

Lemma lang_total_add (m : gmap string Z) (k : string) (lc : Z) :
  lang_total (<[k := default 0 (m !! k) + lc]> m) = lang_total m + lc.
Proof.
  unfold lang_total.
  assert (forall (j1 j2 : string) (z1 z2 y : Z), z1 + (z2 + y) = z2 + (z1 + y))
    as Hcomm by (intros; lia).
  destruct (m !! k) as [v|] eqn:E; simpl.
  - rewrite <- insert_delete_eq.
    rewrite map_fold_insert_L; [|intros; apply Hcomm; done|apply lookup_delete_eq].
    rewrite (map_fold_delete_L _ _ k v m); [lia|intros; apply Hcomm; done|done].
  - rewrite map_fold_insert_L; [lia|intros; apply Hcomm; done|done].
Qed.

(** X5. For every tree, built or not, the lines that the aggregator files
    under the extensions add up to its total of lines. *)
Theorem by_language_adds_up (t : node) :
  lang_total (by_language (calculate_stats t)) = total_lines (calculate_stats t).
Proof.
  unfold calculate_stats.
  apply (traverse_invariant (fun _ => True)
           (fun st => lang_total (by_language st) = total_lines st)); try done.
  - intros n _. by apply Forall_forall.
  - intros n st _ _ Hst. unfold count_file.
    destruct (0 <? line_count n); simpl; [|done].
    rewrite lang_total_add. lia.
Qed.

(** X6. For every tree the builder returns, every extension under which the
    aggregator files lines is one of the countable extensions. *)
Theorem by_language_keys_countable (p : string) (f : fsnode) (max_depth : Z)
    (include_hidden : bool) (t : node) (ext : string) :
  analyze_directory p f max_depth include_hidden 0 = Return (Some t) ->
  is_Some (by_language (calculate_stats t) !! ext) ->
  ext ∈ CODE_EXTENSIONS.
Proof.
  intros Ht. apply built_root in Ht. unfold calculate_stats.
  revert ext. 
  apply (traverse_invariant (fun n => exists d, built max_depth include_hidden d n)
           (fun st => forall ext, is_Some (by_language st !! ext) ->
                                  ext ∈ CODE_EXTENSIONS)).
  - intros n (d & Hb). apply built_children in Hb.
    eapply Forall_impl; [exact Hb|]. intros c Hc. by exists (d + 1).
  - done.
  - intros n st (d & q & [content|listing] & Hn) Hty Hst ext.
    + rewrite analyze_directory_file in Hn. destruct (d >? max_depth); [done|].
      injection Hn as <-. simpl. unfold count_file.
      case_bool_decide as Hext; [|simpl; apply Hst].
      destruct (0 <? _); simpl; [|apply Hst].
      destruct (decide (path_ext q = ext)) as [<-|Hne]; [done|].
      rewrite lookup_insert_ne by done. apply Hst.
    + by apply analyze_directory_dir in Hn as (_ & _ & chn & lc & -> & _).
  - by exists 0.
  - intros ext. simpl. rewrite lookup_empty. by intros [? ?].
Qed.

Lemma by_language_keys_countable_witness : "py" ∈ CODE_EXTENSIONS.
Proof.
  apply (by_language_keys_countable project_root project 3 false project_tree "py").
  - vm_compute. reflexivity.
  - exists 15. vm_compute. reflexivity.
Defined.

(** ** Names, paths and the order of a listing *)

Lemma str_app_cons (a : ascii) (s t : string) :
  String a s +:+ t = String a (s +:+ t).
Proof. reflexivity. Qed.

Lemma str_app_nil_r (s : string) : s +:+ "" = s.
Proof.
  induction s as [|a s IH]; [done|]. by rewrite str_app_cons, IH.
Qed.

Lemma str_app_assoc (a b c : string) : (a +:+ b) +:+ c = a +:+ (b +:+ c).
Proof.
  induction a as [|x a IH]; [done|]. by rewrite !str_app_cons, IH.
Qed.

Lemma path_name_from_no_slash (seg s : string) :
  no_slash s = true -> path_name_from seg s = seg +:+ s.
Proof.
  revert seg. induction s as [|a r IH]; intros seg Hs;
    cbn [path_name_from no_slash] in *.
  - by rewrite str_app_nil_r.
  - apply andb_true_iff in Hs as [Ha Hr]. apply negb_true_iff in Ha.
    by rewrite Ha, (IH _ Hr), str_app_assoc.
Qed.

Lemma path_name_from_slash (seg s r : string) :
  path_name_from seg (s +:+ String "/" r) = path_name_from "" r.
Proof.
  revert seg. induction s as [|a s IH]; intros seg; [done|].
  rewrite str_app_cons. cbn [path_name_from].
  destruct (Ascii.eqb a "/"); apply IH.
Qed.

(** The name of [str(Path(p) / entry)] is the entry *)
Lemma path_name_joinpath (p entry : string) :
  no_slash entry = true -> path_name (joinpath p entry) = entry.
Proof.
  intros Hs. unfold path_name, joinpath.
  destruct (String.eqb p "/") eqn:E.
  - apply String.eqb_eq in E as ->.
    change ("/" +:+ entry) with (String "/" entry). cbn [path_name_from].
    change (Ascii.eqb "/" "/") with true. cbv iota.
    by apply path_name_from_no_slash.
  - change (p +:+ "/" +:+ entry) with (p +:+ String "/" entry).
    rewrite path_name_from_slash. by apply path_name_from_no_slash.
Qed.

Lemma key_le_antisym (a b : bool * string) :
  key_le a b = true -> key_le b a = true -> a = b.
Proof.
  destruct a as [[] a], b as [[] b]; unfold key_le; simpl; try done;
    intros H1 H2; by rewrite (String.leb_antisym _ _ H1 H2).
Qed.

Lemma sorted_items_perm (p : string) (l1 l2 : list (string * fsnode)) :
  l1 ≡ₚ l2 -> NoDup l1.*1 -> Forall (fun en => no_slash en.1 = true) l1 ->
  sorted_items p l1 = sorted_items p l2.
Proof.
  intros Hp Hnd Hns. unfold sorted_items.
  apply (StronglySorted_unique_strong (key_rel item_key)).
  - intros [q1 c1] [q2 c2] Hin1 Hin2 H12 H21.
    apply elem_of_sorted, list_elem_of_fmap in Hin1 as ([n1 c1'] & [= -> ->] & Hin1).
    apply elem_of_sorted, list_elem_of_fmap in Hin2 as ([n2 c2'] & [= -> ->] & Hin2).
    rewrite <- Hp in Hin2.
    pose proof (key_le_antisym _ _ H12 H21) as Hk. unfold item_key in Hk.
    simpl in Hk. injection Hk as _ Hk.
    rewrite Forall_forall in Hns.
    rewrite !path_name_joinpath in Hk
      by (first [apply (Hns _ Hin1) | apply (Hns _ Hin2)]).
    subst n2. f_equal.
    apply list_elem_of_lookup in Hin1 as (i1 & Hi1).
    apply list_elem_of_lookup in Hin2 as (i2 & Hi2).
    assert (i1 = i2) as ->.
    { eapply NoDup_lookup; [exact Hnd| |].
      - by rewrite list_lookup_fmap, Hi1.
      - by rewrite list_lookup_fmap, Hi2. }
    congruence.
  - apply sorted_strongly.
  - apply sorted_strongly.
  - rewrite !sorted_perm. by apply fmap_Permutation.
Qed.

(** X7. The tree does not depend on the order in which the system lists a
    directory: two listings of the same entries, whose names are distinct
    and hold no separator, give the same result. *)
Theorem listing_order_irrelevant (p : string) (l1 l2 : list (string * fsnode))
    (max_depth : Z) (include_hidden : bool) (d : Z) :
  l1 ≡ₚ l2 -> NoDup l1.*1 -> Forall (fun en => no_slash en.1 = true) l1 ->
  analyze_directory p (Dir (Return l1)) max_depth include_hidden d =
  analyze_directory p (Dir (Return l2)) max_depth include_hidden d.
Proof.
  intros Hp Hnd Hns. rewrite !analyze_directory_eq.
  destruct (d >? max_depth); [done|].
  unfold analyze_node, process_children.
  by rewrite (sorted_items_perm p l1 l2).
Qed.

Lemma listing_order_irrelevant_witness :
  analyze_directory project_root
    (Dir (Return [("b.py", File (Return five_lines)); ("a", Dir (Return []))]))
    3 false 0 =
  analyze_directory project_root
    (Dir (Return [("a", Dir (Return [])); ("b.py", File (Return five_lines))]))
    3 false 0.
Proof.
  apply (listing_order_irrelevant project_root
           [("b.py", File (Return five_lines)); ("a", Dir (Return []))]
           [("a", Dir (Return [])); ("b.py", File (Return five_lines))]
           3 false 0).
  - apply Permutation_swap.
  - change (NoDup ["b.py"; "a"]). apply (bool_decide_unpack _). vm_compute. exact I.
  - repeat constructor.
Defined.

(** X8. In every tree the builder returns, the name of a node is the final
    segment of its path, and the path of a child node is the path of its
    parent joined with the name under which the parent lists it; when that
    name holds no separator, it is the name of the child node. *)
Theorem child_path_is_joined (p : string) (f : fsnode) (max_depth : Z)
    (include_hidden : bool) (t n c : node) :
  analyze_directory p f max_depth include_hidden 0 = Return (Some t) ->
  n ∈ nodes t ->
  c ∈ child_nodes n ->
  name n = path_name (path n) /\
  exists entry, path c = joinpath (path n) entry /\
                (no_slash entry = true -> name c = entry).
Proof.
  intros Ht Hn Hc. apply built_root in Ht.
  destruct (built_node_of_tree _ _ _ _ Ht Hn) as (k & q & [content|listing] & Hk).
  - rewrite analyze_directory_file in Hk. destruct (k >? max_depth); [done|].
    injection Hk as <-. by apply elem_of_nil in Hc.
  - apply analyze_directory_dir in Hk as (_ & _ & chn & lc & -> & Hch).
    split; [done|].
    destruct Hch as [(_ & -> & _)|[(_ & _ & -> & _)|(_ & entries & kept & _ & Ec & -> & _)]];
      try by apply elem_of_nil in Hc.
    rewrite child_nodes_inr in Hc.
    assert (c ∈ (collect
                   (fun q c => analyze_directory q c max_depth include_hidden (k + 1))
                   (sorted_items q entries)).1) as Hin by (by rewrite Ec).
    apply collect_from in Hin as ([qc fc] & Hin & Hitem). simpl in Hitem.
    unfold sorted_items in Hin.
    apply elem_of_sorted, list_elem_of_fmap in Hin as ([entry fc'] & [= -> ->] & _).
    exists entry. simpl.
    assert (path c = joinpath q entry /\ name c = path_name (joinpath q entry))
      as [Hpath Hname].
    { destruct fc' as [content|listing'].
      - rewrite analyze_directory_file in Hitem.
        destruct (k + 1 >? max_depth); [done|]. by injection Hitem as <-.
      - by apply analyze_directory_dir in Hitem as (_ & _ & ? & ? & -> & _). }
    split; [done|]. intros Hs. by rewrite Hname, path_name_joinpath.
Qed.

Lemma child_path_is_joined_witness :
  "proj" = path_name "/home/u/proj" /\
  exists entry, "/home/u/proj/src" = joinpath "/home/u/proj" entry /\
                (no_slash entry = true -> "src" = entry).
Proof.
  apply (child_path_is_joined project_root project 3 false project_tree project_tree
           (Node "src" TDir "/home/u/proj/src"
              [inr (Node "a.py" TFile "/home/u/proj/src/a.py" [] 10 false);
               inr (Node "b.py" TFile "/home/u/proj/src/b.py" [] 5 false)]
              15 true)).
  - vm_compute. reflexivity.
  - vm_compute. left.
  - vm_compute. right. left.
Defined.

(** X9. A maximum depth beyond the deepest entry of the file system prunes
    nothing: every such bound gives the same tree. *)
Theorem deep_bounds_agree (p : string) (f : fsnode) (md1 md2 : Z)
    (include_hidden : bool) :
  Z.of_nat (fs_height f) <= md1 -> Z.of_nat (fs_height f) <= md2 ->
  analyze_directory p f md1 include_hidden 0 =
  analyze_directory p f md2 include_hidden 0.
Proof.
  intros H1 H2. apply (analyze_directory_deep (fs_height f)); lia.
Qed.

Lemma deep_bounds_agree_witness :
  analyze_directory project_root project 2 false 0 =
  analyze_directory project_root project 40 false 0.
Proof.
  apply (deep_bounds_agree project_root project 2 40 false);
    vm_compute; discriminate.
Defined.

(** ** The projection loses nothing *)

Lemma child_to_json_inj_list (cs1 cs2 : list (string + node)) :
  Forall (fun c1 => forall t2, to_json c1 = to_json t2 -> c1 = t2)
         (omap (fun c : string + node =>
                  match c with inr m => Some m | inl _ => None end) cs1) ->
  child_to_json <$> cs1 = child_to_json <$> cs2 -> cs1 = cs2.
Proof.
  revert cs2. induction cs1 as [|c1 r1 IH]; intros [|c2 r2] Hall Heq;
    try done.
  injection Heq as Hc Hr.
  destruct c1 as [s1|n1], c2 as [s2|n2]; simpl in *.
  - injection Hc as ->. f_equal. by apply IH.
  - rewrite to_json_eq in Hc. done.
  - rewrite to_json_eq in Hc. done.
  - apply Forall_cons in Hall as [Hn Hall].
    rewrite (Hn n2 Hc). f_equal. by apply IH.
Qed.

(** X10. The JSON projection is faithful: two trees with the same
    projection are the same tree, markers included. *)
Theorem to_json_injective (t1 t2 : node) :
  to_json t1 = to_json t2 -> t1 = t2.
Proof.
  revert t2. induction t1 as [t1 IH] using node_children_ind. intros t2.
  rewrite !to_json_eq. intros Heq.
  injection Heq as Hname Hty Hpath Hch Hlc Hkey.
  apply child_to_json_inj_list in Hch; [|exact IH].
  destruct t1 as [n1 ty1 p1 c1 l1 k1], t2 as [n2 ty2 p2 c2 l2 k2]. simpl in *.
  subst. f_equal. by destruct ty1, ty2.
Qed.

Lemma to_json_injective_witness :
  Node "src" TDir "/p/src" [inl SKIPPED] (2 + 3) (negb false) =
  Node "src" TDir "/p/src" [inl "<skipped>"] 5 true.
Proof.
  apply (to_json_injective
           (Node "src" TDir "/p/src" [inl SKIPPED] (2 + 3) (negb false))
           (Node "src" TDir "/p/src" [inl "<skipped>"] 5 true)).
  vm_compute. reflexivity.
Defined.

(** ** The renderers *)

Lemma join_lines_cons (x : string) (l : list string) :
  l <> [] -> join_lines (x :: l) = x +:+ NL +:+ join_lines l.
Proof. by destruct l. Qed.

Lemma join_lines_app (l1 l2 : list string) :
  l1 <> [] -> l2 <> [] ->
  join_lines (l1 ++ l2) = join_lines l1 +:+ NL +:+ join_lines l2.
Proof.
  intros H1 H2. induction l1 as [|x l1 IH]; [done|].
  destruct l1 as [|y l1].
  - simpl app. by rewrite join_lines_cons.
  - change ((x :: y :: l1) ++ l2) with (x :: ((y :: l1) ++ l2)).
    rewrite !join_lines_cons, IH by done.
    by rewrite !str_app_assoc.
Qed.

(** Joining lines that are themselves joined lines joins all the lines *)
Lemma join_lines_insert (pre lines rest : list string) :
  lines <> [] ->
  join_lines (pre ++ join_lines lines :: rest) = join_lines (pre ++ lines ++ rest).
Proof.
  intros Hl.
  assert (join_lines (join_lines lines :: rest) = join_lines (lines ++ rest)) as Hr.
  { destruct rest as [|z rest].
    - by rewrite app_nil_r.
    - by rewrite join_lines_cons, join_lines_app. }
  destruct pre as [|x pre]; [done|].
  rewrite !(join_lines_app (x :: pre)); [by rewrite Hr|done| |done|done].
  by destruct lines.
Qed.

Lemma generate_mermaid_tree_eq (t : node) (indent : Z) :
  generate_mermaid_tree t indent =
    join_lines
      match type t with
      | TDir => (str_repeat "  " indent +:+ name t) ::
                ((fun c => generate_mermaid_tree c (indent + 1)) <$> child_nodes t)
      | TFile => [str_repeat "  " indent +:+ name t +:+ line_info (line_count t)]
      end.
Proof.
  destruct t as [nm ty p cs lc k]. unfold child_nodes. simpl.
  destruct ty; [|done]. do 2 f_equal.
  induction cs as [|[s|c] r IH]; csimpl; [done|done|by f_equal].
Qed.

Lemma nodes_from_nonempty (d : Z) (t : node) : nodes_from d t <> [].
Proof. by rewrite nodes_from_children. Qed.

Lemma mermaid_lines_built (max_depth : Z) (include_hidden : bool) (t : node) :
  forall d indent, built max_depth include_hidden d t ->
  generate_mermaid_tree t indent = join_lines (mermaid_line <$> nodes_from indent t).
Proof.
  induction t as [t IH] using node_children_ind. intros d indent Hb.
  rewrite generate_mermaid_tree_eq, nodes_from_children. csimpl.
  unfold mermaid_line at 1. simpl. destruct (type t) eqn:Ety.
  - rewrite str_app_nil_r. apply built_children in Hb.
    generalize (str_repeat "  " indent +:+ name t). intros line.
    change (line :: ?l) with ([line] ++ l).
    generalize [line]. 
    induction (child_nodes t) as [|c r IHr]; intros pre; csimpl; [done|].
    apply Forall_cons in IH as [Hc Hr]. apply Forall_cons in Hb as [Bc Br].
    rewrite (Hc _ (indent + 1) Bc), join_lines_insert.
    + rewrite fmap_app, !app_assoc. apply (IHr Hr Br).
    + intros Hnil. apply fmap_nil_inv in Hnil. by apply nodes_from_nonempty in Hnil.
  - destruct (built_file _ _ _ _ Hb Ety) as (Hch & _).
    unfold child_nodes. by rewrite Hch.
Qed.

(** X11. For every tree the builder returns, the diagram has exactly one
    line for each node of the tree, in the order root first and children in
    their order, indented by two spaces for each level; a file with
    counted lines carries its count, and the markers are left out. *)
Theorem mermaid_one_line_per_node (p : string) (f : fsnode) (max_depth : Z)
    (include_hidden : bool) (t : node) :
  analyze_directory p f max_depth include_hidden 0 = Return (Some t) ->
  generate_mermaid_tree t 0 = join_lines (mermaid_line <$> nodes_from 0 t).
Proof. intros Ht. apply built_root in Ht. by eapply mermaid_lines_built. Qed.

Lemma mermaid_one_line_per_node_witness :
  generate_mermaid_tree project_tree 0 =
    join_lines ["proj"; "  node_modules"; "  src"; "    a.py (10 lines)";
                "    b.py (5 lines)"; "  README.md"].
Proof.
  apply (mermaid_one_line_per_node project_root project 3 false project_tree).
  vm_compute. reflexivity.
Defined.

Lemma text_tree_lines_nonempty (t : node) (prefix : string) (is_last : bool) :
  text_tree_lines t prefix is_last <> [].
Proof. by destruct t. Qed.

Lemma generate_text_tree_lines (t : node) :
  forall prefix is_last,
    generate_text_tree t prefix is_last =
    join_lines (text_tree_lines t prefix is_last).
Proof.
  induction t as [t IH] using node_children_ind. intros prefix is_last.
  destruct t as [nm ty p cs lc k]. unfold child_nodes in IH.
  cbn [generate_text_tree text_tree_lines type name is_key children].
  rewrite !app_assoc.
  generalize ([prefix +:+ (if is_last then CONNECTOR_LAST else CONNECTOR_MID) +:+ nm] ++
              match ty with
              | TDir =>
                  if k then
                    [prefix +:+ (if is_last then EXTENSION_LAST else EXTENSION_MID) +:+
                     "# " +:+ default "" (KEY_DIRECTORIES !! lower nm)]
                  else []
              | TFile => []
              end).
  generalize (Z.of_nat (length cs) - 1). intros last pre.
  cbn [children] in IH. revert pre. generalize 0.
  induction cs as [|[s|c] r IHr]; intros i pre.
  - done.
  - change (pre ++ ?x :: ?l) with (pre ++ [x] ++ l).
    rewrite !app_assoc. apply IHr. exact IH.
  - simpl in IH. apply Forall_cons in IH as [Hc Hr].
    rewrite Hc, join_lines_insert by apply text_tree_lines_nonempty.
    rewrite !app_assoc. by apply IHr.
Qed.

Lemma all_nodes_children (t : node) :
  all_nodes t = t :: mjoin (all_nodes <$> child_nodes t).
Proof.
  destruct t as [nm ty p cs lc k]. unfold child_nodes. simpl. f_equal.
  induction cs as [|[s|c] r IH]; csimpl; [done|done|by f_equal].
Qed.

Lemma text_tree_lines_length (t : node) :
  forall prefix is_last,
    length (text_tree_lines t prefix is_last) =
    (length (all_nodes t) + length (filter (fun n => annotated n = true) (all_nodes t))
     + length (all_markers t))%nat.
Proof.
  induction t as [t IH] using node_children_ind. intros prefix is_last.
  destruct t as [nm ty p cs lc k]. unfold child_nodes in IH.
  cbn [text_tree_lines all_nodes all_markers type name is_key children] in *.
  rewrite filter_cons. unfold annotated at 1. cbn [type is_key].
  assert (forall ext last i,
    length ((fix each (i : Z) (l : list (string + node)) : list string :=
               match l with
               | [] => []
               | inl marker :: r => (prefix +:+ ext +:+ marker) :: each (i + 1) r
               | inr child :: r =>
                   text_tree_lines child (prefix +:+ ext) (i =? last) ++ each (i + 1) r
               end) i cs) =
    (length ((fix each (l : list (string + node)) : list node :=
                match l with
                | [] => []
                | inl _ :: r => each r
                | inr c :: r => all_nodes c ++ each r
                end) cs)
     + length (filter (fun n => annotated n = true)
                 ((fix each (l : list (string + node)) : list node :=
                     match l with
                     | [] => []
                     | inl _ :: r => each r
                     | inr c :: r => all_nodes c ++ each r
                     end) cs))
     + length ((fix each (l : list (string + node)) : list string :=
                  match l with
                  | [] => []
                  | inl s :: r => s :: each r
                  | inr c :: r => all_markers c ++ each r
                  end) cs))%nat) as Hcs.
  { intros ext last. induction cs as [|[s|c] r IHr]; intros i.
    - done.
    - simpl. rewrite (IHr IH). lia.
    - simpl in IH. apply Forall_cons in IH as [Hc Hr].
      rewrite filter_app, !length_app, Hc, (IHr Hr). lia. }
  rewrite !length_app, Hcs. simpl length.
  destruct ty, k; simpl; try case_decide; try done; lia.
Qed.

(** X12. The text tree is the lines of its nodes joined by line breaks: one
    line for every node, an annotation line more for every key directory,
    and one line for every marker, below file nodes too. *)
Theorem text_tree_line_count (t : node) (prefix : string) (is_last : bool) :
  generate_text_tree t prefix is_last = join_lines (text_tree_lines t prefix is_last) /\
  length (text_tree_lines t prefix is_last) =
    (length (all_nodes t) + length (filter (fun n => annotated n = true) (all_nodes t))
     + length (all_markers t))%nat.
Proof.
  split; [apply generate_text_tree_lines | apply text_tree_lines_length].
Qed.

(** ** The command line *)

Lemma parse_options_plain (int : string -> option Z) (args : list string)
    (max_depth : Z) (include_hidden : bool) :
  "--max-depth" ∉ args ->
  parse_options int args max_depth include_hidden =
    Some (max_depth, include_hidden || bool_decide ("--include-hidden" ∈ args)).
Proof.
  revert include_hidden. induction args as [|a rest IH]; intros ih Hno; simpl.
  - by rewrite orb_false_r.
  - apply not_elem_of_cons in Hno as [Hne Hno].
    destruct (String.eqb_spec a "--max-depth") as [->|_]; [done|].
    destruct (String.eqb_spec a "--include-hidden") as [->|Hh].
    + rewrite (IH _ Hno).
      rewrite (bool_decide_eq_true_2 (_ ∈ _ :: _)) by left.
      by rewrite orb_true_r.
    + rewrite (IH _ Hno). do 3 f_equal. apply bool_decide_ext.
      rewrite elem_of_cons. intuition congruence.
Qed.

(** X13. On the command line of [main], [--max-depth] takes the argument
    that follows it as its value, whatever that argument is, and is skipped
    when it is the last argument; without it the depth keeps its default.
    The hidden flag is set by any [--include-hidden] that is not taken as
    such a value; all other arguments are skipped. *)
Theorem depth_option_takes_next_argument (int : string -> option Z)
    (pre post : list string) (v : string) (max_depth : Z) (include_hidden : bool) :
  "--max-depth" ∉ pre ->
  let hidden := include_hidden || bool_decide ("--include-hidden" ∈ pre) in
  parse_options int pre max_depth include_hidden = Some (max_depth, hidden) /\
  parse_options int (pre ++ ["--max-depth"]) max_depth include_hidden =
    Some (max_depth, hidden) /\
  parse_options int (pre ++ "--max-depth" :: v :: post) max_depth include_hidden =
    int v ≫= fun d => parse_options int post d hidden.
Proof.
  intros Hno hidden. split; [by apply parse_options_plain|]. subst hidden.
  revert include_hidden. induction pre as [|a rest IH]; intros ih.
  - simpl. rewrite orb_false_r. done.
  - apply not_elem_of_cons in Hno as [Hne Hno]. specialize (IH Hno).
    cbn [app parse_options].
    destruct (String.eqb_spec a "--max-depth") as [->|_]; [done|].
    destruct (String.eqb_spec a "--include-hidden") as [->|Hh].
    + destruct (IH true) as [-> ->].
      rewrite (bool_decide_eq_true_2 (_ ∈ _ :: _)) by left. by rewrite !orb_true_r.
    + destruct (IH ih) as [-> ->].
      assert (bool_decide ("--include-hidden" ∈ a :: rest) =
              bool_decide ("--include-hidden" ∈ rest)) as ->; [|done].
      apply bool_decide_ext. rewrite elem_of_cons. intuition congruence.
Qed.

Lemma depth_option_takes_next_argument_witness :
  parse_options (fun _ => None) ["--verbose"] 3 false = Some (3, false) /\
  parse_options (fun _ => None) ["--verbose"; "--max-depth"] 3 false = Some (3, false) /\
  parse_options (fun _ => None) ["--verbose"; "--max-depth"; "--include-hidden"] 3 false =
    None.
Proof.
  apply (depth_option_takes_next_argument (fun _ => None) ["--verbose"] []
           "--include-hidden" 3 false).
  apply (bool_decide_unpack _). vm_compute. exact I.
Defined.

(** * Properties of the other scripts *)

(** ** The commit helper *)

Lemma max_by_spec {A : Type} (key : A -> Z) (l : list A) :
  forall best,
    max_by key best l ∈ best :: l /\
    forall y, y ∈ best :: l -> key y <= key (max_by key best l).
Proof.
  induction l as [|x r IH]; intros best; simpl.
  - split; [left|]. intros y ->%list_elem_of_singleton. lia.
  - destruct (key best <? key x) eqn:E.
    + destruct (IH x) as [Hin Hmax]. split.
      * by right.
      * intros y [->|Hy]%elem_of_cons; [|by apply Hmax].
        specialize (Hmax x (list_elem_of_here _ _)). lia.
    + destruct (IH best) as [Hin Hmax]. split.
      * apply elem_of_cons in Hin as [->|Hin]; [left|right; by right].
      * intros y [->|[->|Hy]%elem_of_cons]%elem_of_cons.
        -- apply Hmax. left.
        -- specialize (Hmax best (list_elem_of_here _ _)). lia.
        -- apply Hmax. by right.
Qed.

Lemma scope_of_not_common (file_path s : string) :
  s ∈ CommitHelper.scope_of file_path -> s ∉ CommitHelper.common_dirs.
Proof.
  unfold CommitHelper.scope_of.
  destruct (negb _ && negb _); [|by intros ?%elem_of_nil].
  case_bool_decide as Hc; [by intros ?%elem_of_nil|].
  by intros ->%list_elem_of_singleton.
Qed.

(** X14. The type that [analyze_changes] gives a commit is always one of
    test, docs, feat, fix, refactor and chore, never style: it is a key of
    the table of commit types, so that the subject of the generated message
    is the type, the scope in parentheses when there is one, and the
    description of that type in lower case, never the default one. *)
Theorem commit_type_is_known (set_order : list string -> list string)
    (ch : CommitHelper.changes) (diff : string) (a : CommitHelper.analysis) :
  CommitHelper.analyze_changes set_order ch diff = Some a ->
  CommitHelper.type a ∈ ["test"; "docs"; "feat"; "fix"; "refactor"; "chore"] /\
  exists desc,
    CommitHelper.commit_types !! CommitHelper.type a = Some desc /\
    CommitHelper.generate_commit_message a =
      join_lines
        ([CommitHelper.type a +:+
          match CommitHelper.scope a with
          | Some sc => if String.eqb sc "" then "" else "(" +:+ sc +:+ ")"
          | None => ""
          end +:+ ": " +:+ lower desc; ""] ++
         map (fun detail => "- " +:+ detail) (CommitHelper.details a)).
Proof.
  unfold CommitHelper.analyze_changes. intros Ha.
  assert (CommitHelper.type a = CommitHelper.commit_type ch diff) as Hty.
  { destruct (if bool_decide (CommitHelper.scopes_of ch = []) then _ else _);
      simpl in Ha; [|done]. by injection Ha as <-. }
  assert (CommitHelper.type a ∈ ["test"; "docs"; "feat"; "fix"; "refactor"; "chore"])
    as Hin.
  { rewrite Hty. unfold CommitHelper.commit_type.
    repeat match goal with
           | |- context [if ?b then _ else _] => destruct b
           end; set_solver. }
  split; [done|].
  assert (exists desc, CommitHelper.commit_types !! CommitHelper.type a = Some desc)
    as (desc & Hdesc).
  { repeat (apply elem_of_cons in Hin as [->|Hin]; [vm_compute; eauto|]).
    by apply elem_of_nil in Hin. }
  exists desc. split; [done|].
  unfold CommitHelper.generate_commit_message. rewrite Hdesc. simpl default.
  destruct (CommitHelper.scope a) as [sc|]; [destruct (String.eqb sc "")|];
    by rewrite ?str_app_assoc.
Qed.

Lemma commit_type_is_known_witness :
  "docs" ∈ ["test"; "docs"; "feat"; "fix"; "refactor"; "chore"] /\
  exists desc,
    CommitHelper.commit_types !! "docs" = Some desc /\
    CommitHelper.generate_commit_message
      (CommitHelper.Analysis "docs" None "" ["Modify 1 file(s)"]) =
      join_lines (["docs" +:+ "" +:+ ": " +:+ lower desc; ""] ++
                  map (fun detail => "- " +:+ detail) ["Modify 1 file(s)"]).
Proof.
  apply (commit_type_is_known remove_dups
           (CommitHelper.Changes [] ["README.md"] [] []) ""
           (CommitHelper.Analysis "docs" None "" ["Modify 1 file(s)"])).
  vm_compute. reflexivity.
Defined.

(** X15. Whatever the order in which the set of candidates is iterated, the
    scope of a commit is absent exactly when no changed file lies in a
    directory other than src, lib, test, tests and docs; otherwise it is the
    first directory of some changed file, none of those five, and no other
    candidate comes from more files. *)
Theorem commit_scope_is_most_frequent (set_order : list string -> list string)
    (ch : CommitHelper.changes) (diff : string) :
  set_order (CommitHelper.scopes_of ch) ≡ₚ remove_dups (CommitHelper.scopes_of ch) ->
  exists a,
    CommitHelper.analyze_changes set_order ch diff = Some a /\
    (CommitHelper.scope a = None <-> CommitHelper.scopes_of ch = []) /\
    forall s, CommitHelper.scope a = Some s ->
      s ∈ CommitHelper.scopes_of ch /\
      (s ∉ CommitHelper.common_dirs) /\
      forall s', s' ∈ CommitHelper.scopes_of ch ->
        list_count s' (CommitHelper.scopes_of ch) <= list_count s (CommitHelper.scopes_of ch).
Proof.
  intros Hperm. unfold CommitHelper.analyze_changes, CommitHelper.most_frequent.
  case_bool_decide as Hs.
  { eexists. split; [done|]. simpl. split; [done|]. done. }
  destruct (set_order (CommitHelper.scopes_of ch)) as [|x r] eqn:Eo.
  { symmetry in Hperm. apply Permutation_nil_r in Hperm.
    destruct (CommitHelper.scopes_of ch) as [|y l]; [done|].
    assert (y ∈ remove_dups (y :: l)) as Hy by (apply elem_of_remove_dups; left).
    rewrite Hperm in Hy. by apply elem_of_nil in Hy. }
  eexists. split; [done|]. simpl. split; [done|].
  intros s [= <-].
  destruct (max_by_spec (fun y => list_count y (CommitHelper.scopes_of ch)) r x)
    as [Hin Hmax].
  assert (forall y, y ∈ x :: r <-> y ∈ CommitHelper.scopes_of ch) as Hiff.
  { intros y. by rewrite Hperm, elem_of_remove_dups. }
  apply Hiff in Hin. split; [done|]. split.
  - unfold CommitHelper.scopes_of in Hin.
    apply list_elem_of_In, in_flat_map in Hin as (file & _ & Hin).
    apply list_elem_of_In in Hin. by eapply scope_of_not_common.
  - intros s' Hs'. apply Hmax. by apply Hiff.
Qed.

Lemma commit_scope_is_most_frequent_witness :
  exists a,
    CommitHelper.analyze_changes remove_dups
      (CommitHelper.Changes ["api/a.py"; "web/b.js"] ["api/c.py"] [] []) "" = Some a /\
    (CommitHelper.scope a = None <->
       CommitHelper.scopes_of
         (CommitHelper.Changes ["api/a.py"; "web/b.js"] ["api/c.py"] [] []) = []) /\
    forall s, CommitHelper.scope a = Some s ->
      s ∈ CommitHelper.scopes_of
            (CommitHelper.Changes ["api/a.py"; "web/b.js"] ["api/c.py"] [] []) /\
      (s ∉ CommitHelper.common_dirs) /\
      forall s', s' ∈ CommitHelper.scopes_of
                        (CommitHelper.Changes ["api/a.py"; "web/b.js"] ["api/c.py"] [] []) ->
        list_count s' (CommitHelper.scopes_of
                         (CommitHelper.Changes ["api/a.py"; "web/b.js"] ["api/c.py"] [] []))
        <= list_count s (CommitHelper.scopes_of
                           (CommitHelper.Changes ["api/a.py"; "web/b.js"] ["api/c.py"] [] [])).
Proof.
  apply (commit_scope_is_most_frequent remove_dups
           (CommitHelper.Changes ["api/a.py"; "web/b.js"] ["api/c.py"] [] []) "").
  reflexivity.
Defined.

Lemma split_char_absent (c : ascii) (s : string) :
  str_contains (String c "") s = false -> split_char c s = [s].
Proof.
  induction s as [|a r IH]; [done|]. cbn [str_contains split_char String.prefix].
  destruct (Ascii.ascii_dec c a) as [->|Hne].
  - rewrite (proj2 (Ascii.eqb_eq a a) eq_refl). by destruct r.
  - destruct (Ascii.eqb a c) eqn:E; [apply Ascii.eqb_eq in E; congruence|].
    intros Hr. rewrite IH; [done|]. by destruct (Ascii.ascii_dec c a).
Qed.

Lemma substring_all (s : string) : String.substring 0 (String.length s) s = s.
Proof. induction s as [|a r IH]; [done|]. simpl. by rewrite IH. Qed.

Lemma rstrip_ws_cons (a : ascii) (r : string) :
  rstrip_ws r = r -> r <> "" -> rstrip_ws (String a r) = String a r.
Proof.
  intros Hr Hne. cbn [rstrip_ws]. rewrite Hr.
  destruct (String.eqb_spec r ""); [done|]. by rewrite andb_false_r.
Qed.

(** X16. [get_staged_changes] reads the output of [git status] after
    [run_git_command] has stripped it, so the first line has lost the blank
    of an empty first status column: when the only line reports an unstaged
    modification of a file with an ASCII name, the file is listed as
    modified under its name without its first character. *)
Theorem first_status_line_loses_a_column (c : ascii) (r err : string) :
  is_ascii (String c r) = true ->
  rstrip_ws (String c r) = String c r ->
  str_contains NL (String c r) = false ->
  CommitHelper.get_staged_changes
    (CommitHelper.Completed 0 (" M " +:+ String c r) err) =
    CommitHelper.Changes [] [strip r] [] [].
Proof.
  intros _ Hstrip Hnl.
  unfold CommitHelper.get_staged_changes, CommitHelper.run_git_command.
  cbn [CommitHelper.returncode CommitHelper.stdout Z.eqb negb].
  assert (strip (" M " +:+ String c r) = String "M" (String " " (String c r))) as ->.
  { unfold strip. change (lstrip_ws (" M " +:+ String c r))
      with (String "M" (String " " (String c r))).
    rewrite rstrip_ws_cons; [done| |done].
    by rewrite rstrip_ws_cons. }
  rewrite split_char_absent.
  2:{ cbn [str_contains String.prefix] in *. 
      change (Ascii.eqb (ascii_of_nat 10) "M") with false.
      change (Ascii.eqb (ascii_of_nat 10) " ") with false.
      cbn [orb andb]. exact Hnl. }
  cbn [foldl]. unfold CommitHelper.classify.
  assert (strip (String "M" (String " " (String c r))) =
          String "M" (String " " (String c r))) as ->.
  { unfold strip. change (lstrip_ws (String "M" ?s)) with (String "M" s).
    rewrite rstrip_ws_cons; [done| |done]. by rewrite rstrip_ws_cons. }
  cbn [String.eqb Ascii.eqb Bool.eqb String.substring String.length Nat.sub].
  change (strip "M ") with "M".
  rewrite Nat.sub_0_r, substring_all. done.
Qed.

Lemma first_status_line_loses_a_column_witness :
  CommitHelper.get_staged_changes (CommitHelper.Completed 0 " M README.md" "") =
    CommitHelper.Changes [] ["EADME.md"] [] [].
Proof.
  apply (first_status_line_loses_a_column "R" "EADME.md" "");
    vm_compute; reflexivity.
Defined.

(** ** The route analysis *)

(** X17. [analyze_routes] reads the first ten route files only and returns
    at most twenty endpoints: the total counts every endpoint of those ten
    files, the list returned has twenty of them or all when they are fewer,
    and files after the tenth change nothing. *)
Theorem routes_are_capped {endpoint : Type}
    (find_api_endpoints : string -> list endpoint) (route_files more : list string) :
  let result := EntryPoints.analyze_routes find_api_endpoints route_files in
  result.1 = Z.of_nat (length (flat_map find_api_endpoints (take 10 route_files))) /\
  Z.of_nat (length result.2) = Z.min 20 result.1 /\
  ((10 <= length route_files)%nat ->
   EntryPoints.analyze_routes find_api_endpoints (route_files ++ more) = result).
Proof.
  unfold EntryPoints.analyze_routes. simpl. split; [done|]. split.
  - rewrite length_take. lia.
  - intros Hlen. by rewrite take_app_le.
Qed.

Lemma routes_are_capped_witness :
  let files := ["a"; "b"; "c"; "d"; "e"; "f"; "g"; "h"; "i"; "j"] in
  let result := EntryPoints.analyze_routes (fun f => [f; f; f]) files in
  Z.of_nat (length result.2) = Z.min 20 result.1 /\
  EntryPoints.analyze_routes (fun f => [f; f; f]) (files ++ ["k"]) = result.
Proof.
  destruct (routes_are_capped (fun f : string => [f; f; f])
              ["a"; "b"; "c"; "d"; "e"; "f"; "g"; "h"; "i"; "j"] ["k"])
    as (_ & Hcap & Hmore).
  split; [exact Hcap|]. apply Hmore. simpl. lia.
Defined.

(** ** The tech stack detector *)

Lemma first_manager_unknown (path_exists : string -> bool) (p : string)
    (files : list (string * string)) :
  "Unknown" ∉ files.*2 ->
  TechStack.first_manager path_exists p files = "Unknown" <->
  forall file, file ∈ files.*1 -> path_exists (joinpath p file) = false.
Proof.
  induction files as [|[file manager] rest IH]; intros Hno; simpl.
  - split; [|done]. by intros _ file ?%elem_of_nil.
  - apply not_elem_of_cons in Hno as [Hne Hno]. simpl in Hne.
    destruct (path_exists (joinpath p file)) eqn:E.
    + split; [congruence|]. intros Hall.
      rewrite Hall in E; [done|left].
    + rewrite (IH Hno). split.
      * intros Hall f [->|Hf]%elem_of_cons; [done|by apply Hall].
      * intros Hall f Hf. apply Hall. by right.
Qed.

Lemma first_manager_first (path_exists : string -> bool) (p : string)
    (pre post : list (string * string)) (file manager : string) :
  (forall f, f ∈ pre.*1 -> path_exists (joinpath p f) = false) ->
  path_exists (joinpath p file) = true ->
  TechStack.first_manager path_exists p (pre ++ (file, manager) :: post) = manager.
Proof.
  intros Hpre Hfile. induction pre as [|[f m] pre IH]; simpl.
  - by rewrite Hfile.
  - rewrite Hpre by left. apply IH. intros f' Hf'. apply Hpre. by right.
Qed.

(** X18. [detect_package_manager] answers with the manager of the first
    dependency file, in the order of the table, that exists in the project:
    a lock file decides only when the files before it are absent. It
    answers Unknown exactly when none of the files exists. *)
Theorem package_manager_is_first_match (path_exists : string -> bool) (p : string)
    (pre post : list (string * string)) (file manager : string) :
  (TechStack.detect_package_manager path_exists p = "Unknown" <->
   forall f, f ∈ TechStack.DEPENDENCY_FILES.*1 -> path_exists (joinpath p f) = false) /\
  (TechStack.DEPENDENCY_FILES = pre ++ (file, manager) :: post ->
   (forall f, f ∈ pre.*1 -> path_exists (joinpath p f) = false) ->
   path_exists (joinpath p file) = true ->
   TechStack.detect_package_manager path_exists p = manager).
Proof.
  unfold TechStack.detect_package_manager. split.
  - apply first_manager_unknown. apply (bool_decide_unpack _). vm_compute. exact I.
  - intros ->. apply first_manager_first.
Qed.

Lemma package_manager_is_first_match_witness :
  TechStack.detect_package_manager
    (fun q => bool_decide (q ∈ ["/home/u/proj/yarn.lock"; "/home/u/proj/go.mod"]))
    "/home/u/proj" = "yarn".
Proof.
  apply (package_manager_is_first_match
           (fun q => bool_decide (q ∈ ["/home/u/proj/yarn.lock"; "/home/u/proj/go.mod"]))
           "/home/u/proj"
           [("package.json", "npm/yarn/pnpm"); ("package-lock.json", "npm")]
           (drop 3 TechStack.DEPENDENCY_FILES) "yarn.lock" "yarn").
  - reflexivity.
  - intros f Hf. apply (bool_decide_eq_false_2 _).
    cbn in Hf. apply elem_of_cons in Hf as [->|Hf];
      [|apply list_elem_of_singleton in Hf as ->];
      intros Hin; apply (bool_decide_pack _) in Hin; vm_compute in Hin; exact Hin.
  - vm_compute. reflexivity.
Defined.

Lemma pattern_found_iff (deps : gmap string string) (pattern : string) :
  TechStack.pattern_found deps pattern = true <->
  if str_contains "*" pattern
  then exists dep, is_Some (deps !! dep) /\
                   startswith dep (remove_char "*" pattern) = true
  else is_Some (deps !! pattern).
Proof.
  unfold TechStack.pattern_found. destruct (str_contains "*" pattern).
  - rewrite existsb_exists. split.
    + intros (dep & Hin & Hs). exists dep. split; [|done].
      apply list_elem_of_In, list_elem_of_fmap in Hin as ([d v] & -> & Hin).
      apply elem_of_map_to_list in Hin. by exists v.
    + intros (dep & [v Hv] & Hs). exists dep. split; [|done].
      apply list_elem_of_In, list_elem_of_fmap. exists (dep, v).
      split; [done|]. by apply elem_of_map_to_list.
  - apply bool_decide_eq_true.
Qed.

Lemma string_ltb_of_leb (a b : string) :
  String.leb a b = true -> a <> b -> String.ltb a b = true.
Proof.
  unfold String.leb, String.ltb. intros Hle Hne.
  destruct (String.compare a b) eqn:E; [|done|done].
  by apply String.compare_eq_iff in E.
Qed.

(** X19. [detect_frameworks] reports a framework exactly when one of its
    patterns is found among the dependencies: a pattern with a star when,
    the stars removed, it is the beginning of the name of a dependency, any
    other pattern when it is the name of a dependency. The list it returns
    is in strictly ascending order, hence without repetition. *)
Theorem frameworks_detected (deps : gmap string string) :
  (forall fw,
     fw ∈ TechStack.detect_frameworks deps <->
     exists patterns pattern,
       (fw, patterns) ∈ TechStack.FRAMEWORK_PATTERNS /\ pattern ∈ patterns /\
       if str_contains "*" pattern
       then exists dep, is_Some (deps !! dep) /\
                        startswith dep (remove_char "*" pattern) = true
       else is_Some (deps !! pattern)) /\
  (forall (i j : nat) a b,
     TechStack.detect_frameworks deps !! i = Some a ->
     TechStack.detect_frameworks deps !! j = Some b ->
     (i < j)%nat -> String.ltb a b = true).
Proof.
  unfold TechStack.detect_frameworks. split.
  - intros fw. rewrite elem_of_sorted, elem_of_remove_dups.
    unfold TechStack.frameworks_found.
    rewrite list_elem_of_In, in_flat_map. split.
    + intros ([fw' patterns] & Hin & Hfw). simpl in Hfw.
      destruct (existsb _ patterns) eqn:E; [|done].
      destruct Hfw as [<-|[]].
      apply existsb_exists in E as (pattern & Hp & Hfound).
      exists patterns, pattern. split; [by apply list_elem_of_In|].
      split; [by apply list_elem_of_In|]. by apply pattern_found_iff.
    + intros (patterns & pattern & Hin & Hp & Hfound).
      exists (fw, patterns). split; [by apply list_elem_of_In|]. simpl.
      assert (existsb (TechStack.pattern_found deps) patterns = true) as ->; [|by left].
      apply existsb_exists. exists pattern. split; [by apply list_elem_of_In|].
      by apply pattern_found_iff.
  - intros i j a b Ha Hb Hlt.
    set (l := remove_dups _) in *.
    pose proof (sorted_strongly (fun fw : string => (false, fw)) l) as Hs.
    pose proof (strongly_sorted_lookup _ _ _ _ _ _ Hs Ha Hb Hlt) as Hab.
    apply string_ltb_of_leb; [exact Hab|].
    intros ->.
    assert (NoDup (sorted (fun fw : string => (false, fw)) l)) as Hnd.
    { rewrite sorted_perm. apply NoDup_remove_dups. }
    pose proof (NoDup_lookup _ _ _ _ Hnd Ha Hb). lia.
Qed.

Lemma requirement_entries_from (lines : list string) :
  forall (m : gmap string string) k v,
    foldl TechStack.requirement m lines !! k = Some v ->
    m !! k = Some v \/
    (k <> "" /\ k = lower (take_until TechStack.is_specifier v) /\
     startswith v "#" = false /\ exists raw, raw ∈ lines /\ v = strip raw).
Proof.
  induction lines as [|raw rest IH]; intros m k v; simpl; [by left|].
  intros [Hm|(? & ? & ? & raw' & ? & ?)]%IH.
  - unfold TechStack.requirement in Hm.
    destruct (negb (String.eqb (strip raw) "") && negb (startswith (strip raw) "#"))
      eqn:E; [|by left].
    destruct (String.eqb_spec (lower (take_until TechStack.is_specifier (strip raw))) "")
      as [|Hne]; simpl in Hm; [by left|].
    destruct (decide (lower (take_until TechStack.is_specifier (strip raw)) = k))
      as [<-|Hk].
    + rewrite lookup_insert_eq in Hm. injection Hm as <-. right.
      apply andb_true_iff in E as [_ E]. apply negb_true_iff in E.
      repeat split; try done. exists raw. split; [left|done].
    + rewrite lookup_insert_ne in Hm by done. by left.
  - right. repeat split; try done. exists raw'. split; [by right|done].
Qed.

(** X20. Every entry of what [parse_requirements_txt] returns comes from a
    line of the file: its value is that line stripped, which is no comment,
    and its key is the part of the value before the first version
    specifier or blank, in lower case, and is not empty. A failure while
    reading keeps the entries of the lines read before it. *)
Theorem requirement_entries (lines : list string) (failure : option exn)
    (k v : string) :
  TechStack.parse_requirements_txt (lines, failure) !! k = Some v ->
  k <> "" /\ k = lower (take_until TechStack.is_specifier v) /\
  startswith v "#" = false /\ (exists raw, raw ∈ lines /\ v = strip raw) /\
  TechStack.parse_requirements_txt (lines, failure) =
    TechStack.parse_requirements_txt (lines, None).
Proof.
  unfold TechStack.parse_requirements_txt. simpl.
  intros [Hm|(? & ? & ? & ?)]%requirement_entries_from.
  - by rewrite lookup_empty in Hm.
  - done.
Qed.

Lemma requirement_entries_witness :
  "django" <> "" /\
  "django" = lower (take_until TechStack.is_specifier "Django>=4.2") /\
  startswith "Django>=4.2" "#" = false /\
  (exists raw, raw ∈ ["# pinned"; "  Django>=4.2 "] /\ "Django>=4.2" = strip raw) /\
  TechStack.parse_requirements_txt (["# pinned"; "  Django>=4.2 "], Some OSError) =
    TechStack.parse_requirements_txt (["# pinned"; "  Django>=4.2 "], None).
Proof.
  apply (requirement_entries ["# pinned"; "  Django>=4.2 "] (Some OSError)
           "django" "Django>=4.2").
  vm_compute. reflexivity.
Defined.

Lemma go_mod_lines_before (pre rest : list string) (deps : gmap string string) :
  Forall (fun raw => startswith (strip raw) "require" = false) pre ->
  TechStack.go_mod_lines (pre ++ rest) false deps =
  TechStack.go_mod_lines rest false deps.
Proof.
  induction 1 as [|raw pre Hraw Hpre IH]; simpl; [done|]. by rewrite Hraw.
Qed.

Lemma go_mod_lines_block (block post : list string) (close : string) :
  Forall (fun raw => startswith (strip raw) "require" = false /\ strip raw <> ")")
         block ->
  strip close = ")" ->
  forall deps,
    TechStack.go_mod_lines (block ++ close :: post) true deps =
    TechStack.go_mod_lines block true deps.
Proof.
  intros Hblock Hclose.
  induction Hblock as [|raw block [Hreq Hne] Hblock IH]; intros deps; simpl.
  - by rewrite Hclose.
  - rewrite Hreq. destruct (String.eqb_spec (strip raw) ")"); [done|].
    by destruct (split_ws (strip raw)) as [|p0 [|p1 ?]].
Qed.

(** X21. [parse_go_mod] reads one block only: nothing is recorded before
    the first line that begins with require, that line itself is only a
    switch, and reading stops at the first closing parenthesis after it, so
    that everything after the first block, a second require block
    included, is ignored. *)
Theorem go_mod_reads_first_block (pre block post : list string)
    (req close : string) (failure : option exn) :
  Forall (fun raw => startswith (strip raw) "require" = false) pre ->
  startswith (strip req) "require" = true ->
  Forall (fun raw => startswith (strip raw) "require" = false /\ strip raw <> ")")
         block ->
  strip close = ")" ->
  TechStack.parse_go_mod (pre ++ req :: block ++ close :: post, failure) =
  TechStack.go_mod_lines block true ∅.
Proof.
  intros Hpre Hreq Hblock Hclose. unfold TechStack.parse_go_mod. simpl.
  rewrite go_mod_lines_before by done. simpl. rewrite Hreq.
  by apply go_mod_lines_block.
Qed.

Lemma go_mod_reads_first_block_witness :
  TechStack.parse_go_mod
    (["module example.com/app"; "go 1.21"] ++ "require (" ::
       ["    github.com/gin-gonic/gin v1.9.1"] ++ ")" ::
       ["require ("; "    golang.org/x/text v0.14.0 // indirect"; ")"], None) =
  TechStack.go_mod_lines ["    github.com/gin-gonic/gin v1.9.1"] true ∅.
Proof.
  apply (go_mod_reads_first_block
           ["module example.com/app"; "go 1.21"]
           ["    github.com/gin-gonic/gin v1.9.1"]
           ["require ("; "    golang.org/x/text v0.14.0 // indirect"; ")"]
           "require (" ")" None).
  - repeat constructor.
  - reflexivity.
  - repeat constructor. vm_compute. discriminate.
  - reflexivity.
Defined.


(** * More on the builder *)

(** X22. In every tree the builder returns, the nodes flagged as key
    directories are exactly the directory nodes whose name, in lower case,
    is in the table of key directories. *)
Theorem key_flag_iff (p : string) (f : fsnode) (max_depth : Z)
    (include_hidden : bool) (t n : node) :
  analyze_directory p f max_depth include_hidden 0 = Return (Some t) ->
  n ∈ nodes t ->
  is_key n = true <->
  type n = TDir /\ is_Some (KEY_DIRECTORIES !! lower (name n)).
Proof.
  intros Ht Hn. apply built_root in Ht.
  destruct (built_node_of_tree _ _ _ _ Ht Hn) as (k & q & [content|listing] & Hk).
  - rewrite analyze_directory_file in Hk. destruct (k >? max_depth); [done|].
    injection Hk as <-. simpl. split; [done|]. by intros [? _].
  - apply analyze_directory_dir in Hk as (_ & _ & chn & lc & -> & _). simpl.
    rewrite bool_decide_eq_true. split; [done|]. by intros [_ ?].
Qed.

Lemma key_flag_iff_witness :
  true = true <-> TDir = TDir /\ is_Some (KEY_DIRECTORIES !! lower "src").
Proof.
  apply (key_flag_iff project_root project 3 false project_tree
           (Node "src" TDir "/home/u/proj/src"
              [inr (Node "a.py" TFile "/home/u/proj/src/a.py" [] 10 false);
               inr (Node "b.py" TFile "/home/u/proj/src/b.py" [] 5 false)]
              15 true)).
  - vm_compute. reflexivity.
  - vm_compute. do 2 right. left.
Defined.

Lemma analyze_directory_none_iff (p : string) (f : fsnode) (max_depth : Z)
    (include_hidden : bool) (d : Z) :
  analyze_directory p f max_depth include_hidden d = Return None <->
  max_depth < d \/
  (is_dir f = true /\ include_hidden = false /\ hidden_name (path_name p) = true).
Proof.
  rewrite analyze_directory_eq. destruct (d >? max_depth) eqn:E.
  { split; [intros _; left; lia|done]. }
  unfold analyze_node. destruct f as [content|listing]; simpl.
  - split.
    + destruct (count_lines_returns content) as (n & -> & _). by case_bool_decide.
    + intros [?|(? & _)]; [lia|done].
  - destruct include_hidden, (hidden_name (path_name p)) eqn:Eh; simpl;
      try (split; [intros _; by right|done]).
    all: split; [|intros [?|(_ & ? & ?)]; [lia|done]].
    all: case_bool_decide; [done|].
    all: destruct (process_children _ p listing) as [[chn lc] [e|]]; [|done].
    all: by destruct (is_permission_error e).
Qed.

Lemma collect_length (analyze : string -> fsnode -> result (option node))
    (keep : string * fsnode -> bool) (items : list (string * fsnode))
    (kept : list node) :
  (forall item, item ∈ items ->
     analyze item.1 item.2 = Return None <-> keep item = false) ->
  collect analyze items = (kept, None) ->
  length kept = length (filter (fun item => keep item = true) items).
Proof.
  revert kept. induction items as [|item rest IH]; intros kept Hk; simpl.
  - by intros [= <-].
  - rewrite filter_cons.
    pose proof (Hk item (list_elem_of_here _ _)) as Hitem.
    assert (forall it, it ∈ rest ->
              analyze it.1 it.2 = Return None <-> keep it = false) as Hrest.
    { intros it Hit. apply Hk. by right. }
    destruct (analyze item.1 item.2) as [[child|]|e] eqn:E.
    + destruct (collect analyze rest) as [kept' raised] eqn:Ec. simpl.
      intros [= <- ->]. destruct (keep item) eqn:Ek.
      * rewrite decide_True by done. simpl. f_equal. by apply IH.
      * destruct Hitem as [_ Hi]. by specialize (Hi eq_refl).
    + intros Hc. rewrite decide_False; [by apply IH|].
      rewrite (proj1 Hitem eq_refl). done.
    + done.
Qed.

Lemma filter_length_perm {A : Type} (P : A -> Prop) `{forall x, Decision (P x)}
    (l1 l2 : list A) :
  l1 ≡ₚ l2 -> length (filter P l1) = length (filter P l2).
Proof. intros Hp. by rewrite Hp. Qed.

(** X23. Below the maximum depth nothing is dropped but hidden
    directories: a directory that is listed, that is not skipped for its
    own name and that lies above the maximum depth has one child node for
    every entry, the directories with a hidden name apart when hidden
    entries are not included. *)
Theorem entries_kept (p : string) (entries : list (string * fsnode))
    (max_depth : Z) (include_hidden : bool) (d : Z) (t : node) :
  analyze_directory p (Dir (Return entries)) max_depth include_hidden d =
    Return (Some t) ->
  d < max_depth ->
  path_name p ∉ skip_dirs ->
  length (child_nodes t) =
    length (filter (fun en => kept_entry p include_hidden en = true) entries).
Proof.
  intros Ht Hd Hskip.
  apply analyze_directory_dir in Ht as (_ & _ & chn & lc & -> & Hc).
  destruct Hc as [(? & _)|[(_ & ? & _)|(_ & entries' & kept & [= <-] & Ec & -> & _)]];
    [done|done|].
  rewrite child_nodes_inr.
  rewrite (collect_length
             (fun q c => analyze_directory q c max_depth include_hidden (d + 1))
             (fun item => negb (is_dir item.2 && negb include_hidden
                                && hidden_name (path_name item.1)))
             (sorted_items p entries) kept); [| |exact Ec].
  - unfold sorted_items.
    rewrite (filter_length_perm _ _ _ (sorted_perm _ _)).
    clear. induction entries as [|en rest IH]; [done|].
    csimpl. rewrite !filter_cons.
    change (kept_entry p include_hidden en)
      with (negb (is_dir en.2 && negb include_hidden
                  && hidden_name (path_name (joinpath p en.1)))).
    repeat case_decide; simpl; rewrite ?IH; done.
  - intros [q c] _. simpl. rewrite analyze_directory_none_iff, negb_false_iff.
    rewrite !andb_true_iff, negb_true_iff. split.
    + intros [?|(? & ? & ?)]; [lia|done].
    + intros [[? ?] ?]. by right.
Qed.

Lemma entries_kept_witness :
  length (child_nodes project_tree) =
    length (filter (fun en => kept_entry project_root false en = true)
              [("README.md", File (Return three_lines));
               ("src", Dir (Return [("b.py", File (Return five_lines));
                                    ("a.py", File (Return ten_lines))]));
               ("node_modules", Dir (Return []))]).
Proof.
  apply (entries_kept project_root
           [("README.md", File (Return three_lines));
            ("src", Dir (Return [("b.py", File (Return five_lines));
                                 ("a.py", File (Return ten_lines))]));
            ("node_modules", Dir (Return []))]
           3 false 0 project_tree).
  - vm_compute. reflexivity.
  - lia.
  - vm_compute. intros H. apply (bool_decide_pack _) in H. vm_compute in H. exact H.
Defined.


(** ** Unreadable files *)







(** ** The language count *)

Lemma walk_languages_eq (entries : list (string * fsnode)) (counts : gmap string Z) :
  TechStack.walk_languages (Dir (Return entries)) counts =
    foldl (fun acc (en : string * fsnode) =>
             if is_dir en.2 && negb (bool_decide (en.1 ∈ TechStack.ignored_dirs))
             then TechStack.walk_languages en.2 acc else acc)
          (foldl TechStack.count_language counts (TechStack.walk_files entries))
          entries.
Proof.
  simpl. generalize (foldl TechStack.count_language counts (TechStack.walk_files entries)).
  induction entries as [|[nm c] r IH]; intros acc; simpl; [done|].
  destruct (is_dir c && negb (bool_decide (nm ∈ TechStack.ignored_dirs))); apply IH.
Qed.

Lemma fsnode_entries_ind (P : fsnode -> Prop) :
  (forall content, P (File content)) ->
  (forall e, P (Dir (Raise e))) ->
  (forall entries, Forall (fun en : string * fsnode => P en.2) entries ->
                   P (Dir (Return entries))) ->
  forall f, P f.
Proof.
  intros Hfile Hraise Hdir. fix IH 1. intros [content|[entries|e]];
    [apply Hfile| |apply Hraise].
  apply Hdir. induction entries as [|[nm c] r IHr]; constructor; [apply IH|exact IHr].
Qed.

Lemma walk_files_prune (entries : list (string * fsnode)) :
  TechStack.walk_files
    (map (fun en : string * fsnode =>
            (en.1, if is_dir en.2 && bool_decide (en.1 ∈ TechStack.ignored_dirs)
                   then Dir (Return [])
                   else TechStack.prune_ignored en.2)) entries) =
  TechStack.walk_files entries.
Proof.
  unfold TechStack.walk_files.
  induction entries as [|[nm c] r IH]; [done|]. csimpl. rewrite !filter_cons. simpl.
  assert (is_dir (if is_dir c && bool_decide (nm ∈ TechStack.ignored_dirs)
                  then Dir (Return []) else TechStack.prune_ignored c) = is_dir c) as ->.
  { destruct c as [?|[?|?]]; simpl; try case_bool_decide; done. }
  repeat case_decide; csimpl; rewrite ?IH; done.
Qed.

(** X24. [detect_languages] counts nothing below a directory with an
    ignored name, at whatever depth it lies: emptying every such directory
    below the root leaves the counts as they are. The root itself is walked
    whatever its name. *)
Theorem ignored_directories_are_not_counted (project : fsnode) :
  TechStack.detect_languages (TechStack.prune_ignored project) =
  TechStack.detect_languages project.
Proof.
  unfold TechStack.detect_languages. generalize (∅ : gmap string Z).
  induction project as [content|e|entries IH] using fsnode_entries_ind;
    intros counts; [done|done|].
  cbn [TechStack.prune_ignored]. rewrite !walk_languages_eq, walk_files_prune.
  generalize (foldl TechStack.count_language counts (TechStack.walk_files entries)).
  induction IH as [|[nm c] r Hc Hr IHr]; intros acc; [done|].
  csimpl. rewrite IHr. f_equal.
  assert (is_dir (if is_dir c && bool_decide (nm ∈ TechStack.ignored_dirs)
                  then Dir (Return []) else TechStack.prune_ignored c) = is_dir c) as ->.
  { destruct c as [?|[?|?]]; simpl; try case_bool_decide; done. }
  destruct (is_dir c); [|done]. simpl.
  case_bool_decide; simpl; [done|]. apply Hc.
Qed.
